(** * GeoJsonLayer: bucket decomposition, incremental update and picking

    A shallow embedding of [modules/layers/src/geojson-layer/geojson-layer.ts]
    (class [GeoJsonLayer]) and of the helpers it imports, followed by the
    properties of the layer's update, picking, accessor and point-rendering
    logic. *)

From Stdlib Require Import ZArith Ascii String Lia.
From stdpp Require Import base option list gmap strings.

Local Open Scope string_scope.
Local Open Scope nat_scope.
Local Open Scope list_scope.
Set Warnings "-register-all,-clear-no-such-hyp".

(** ** Data model *)

Section Data.
Context {Coord Props : Type}.

(** A position is an ordered sequence of coordinates (the numbers
    themselves are opaque to the layer). *)
Definition Position := list Coord.

(** GeoJSON geometries; [UnknownGeometry] stands for an unknown [type]
    or missing [coordinates]. *)
Inductive Geometry :=
| Point (c : Position)
| MultiPoint (cs : list Position)
| LineString (cs : list Position)
| MultiLineString (ls : list (list Position))
| Polygon (rings : list (list Position))
| MultiPolygon (ps : list (list (list Position)))
| GeometryCollection (gs : list Geometry)
| UnknownGeometry.

Record Feature := mkFeature {
  geometry : option Geometry;
  properties : Props
}.

(** The three bucket kinds of [SeparatedGeometries]. *)
Inductive BucketKey := pointBucket | lineBucket | polygonBucket.

(** Single (non-multi) geometry carried by one bucket record. *)
Inductive Shape :=
| SPoint (c : Position)
| SLine (cs : list Position)
| SPolygon (rings : list (list Position)).

Definition shapeKind (s : Shape) : BucketKey :=
  match s with
  | SPoint _ => pointBucket
  | SLine _ => lineBucket
  | SPolygon _ => polygonBucket
  end.

(** One wrapped bucket record; [source_index] and [source_object] are the
    [__source.index] and [__source.object] attached by [getSubLayerRow]. *)
Record GeomRecord := mkGeomRecord {
  source_index : nat;
  sub_index : nat;
  shape : Shape;
  source_object : Feature
}.

(** Change range / change report entry: [{startRow, endRow}]. *)
Record DataRange := mkRange { startRow : nat; endRow : nat }.

(** Structure-of-arrays sub-structure of a binary collection; only the
    [globalFeatureIds.value] typed array is read by the layer itself. *)
Record BinaryFeature := mkBinaryFeature {
  globalFeatureIds_value : list Z
}.

(** Property values found in a [data] object. *)
Inductive JSField :=
| FString (s : string)
| FFeatures (fs : list Feature)
| FGeometry (g : Geometry)
| FBinary (b : BinaryFeature)
| FOther.

(** The (already resolved) [data] prop. *)
Inductive DataValue :=
| DNullish
| DArray (fs : list Feature)
| DObject (o : gmap string JSField).

(** [changeFlags.dataChanged]: [false], a reason string, or a list of
    changed ranges. *)
Inductive DataChanged :=
| DCFalse
| DCReason (s : string)
| DCRanges (rs : list DataRange).

(** Partial objects keyed by bucket kind. *)
Definition Partial (A : Type) := BucketKey -> option A.
End Data.

Arguments Geometry : clear implicits.
Arguments Shape : clear implicits.
Arguments Feature : clear implicits.
Arguments GeomRecord : clear implicits.
Arguments JSField : clear implicits.
Arguments DataValue : clear implicits.

Global Instance BucketKey_eq_dec : EqDecision BucketKey.
Proof. solve_decision. Defined.

Global Instance DataRange_eq_dec : EqDecision DataRange.
Proof. solve_decision. Defined.

Definition all_keys : list BucketKey := [pointBucket; lineBucket; polygonBucket].

Definition partial_empty {A} : Partial A := fun _ => None.

Definition partial_set {A} (o : Partial A) (k : BucketKey) (v : A) : Partial A :=
  fun k' => if decide (k' = k) then Some v else o k'.

(** Keys enumerated by [for (const key in o)]. *)
Definition keys_of {A} (o : Partial A) : list BucketKey :=
  filter (fun k => is_Some (o k)) all_keys.

(** JavaScript truthiness of [changeFlags.dataChanged]. *)
Definition dataChanged_truthy (d : DataChanged) : bool :=
  match d with
  | DCFalse => false
  | DCReason s => negb (String.eqb s EmptyString)
  | DCRanges _ => true
  end.

(** The [in] operator on the [data] prop ([data && key in data]). *)
Definition has_key {Coord Props} (k : string) (data : DataValue Coord Props) : bool :=
  match data with
  | DObject o => bool_decide (is_Some (o !! k))
  | _ => false
  end.

(** ** Geometry normalizer and bucket separator *)

Section Separator.
Context {Coord Props : Type}.
#[local] Abbreviation Geometry := (Geometry Coord).
#[local] Abbreviation Shape := (Shape Coord).
#[local] Abbreviation Feature := (Feature Coord Props).
#[local] Abbreviation GeomRecord := (GeomRecord Coord Props).

(** Modelled from the spec: the Geometry Normalizer of [./geojson]
    (section 4.1), which is not part of the sources at hand.  A geometry
    is expanded into its single-geometry parts in encounter order. *)
Fixpoint flattenGeometry (g : Geometry) : list Shape :=
  match g with
  | Point c => [SPoint c]
  | MultiPoint cs => map SPoint cs
  | LineString cs => [SLine cs]
  | MultiLineString ls => map SLine ls
  | Polygon rings => [SPolygon rings]
  | MultiPolygon ps => map SPolygon ps
  | GeometryCollection gs => flat_map flattenGeometry gs
  | UnknownGeometry => []
  end.

(** Modelled from the spec: [normalize(feature)] of section 4.1 together
    with the wrapping of section 4.3; [subIndex] numbers the parts of one
    feature in encounter order and every record refers back to its
    feature. *)
Definition normalize (sourceIndex : nat) (f : Feature) : list GeomRecord :=
  imap (fun i s => mkGeomRecord sourceIndex i s f)
       (from_option flattenGeometry [] (geometry f)).

(** Modelled from the spec: the scan of the Bucket Separator (section 4.3)
    over the flattened collection; [i] is the source index of the head of
    [features], and only features with [startRow <= index < endRow]
    contribute. *)
Fixpoint separateFrom (i : nat) (features : list Feature) (r : DataRange)
  : list GeomRecord :=
  match features with
  | [] => []
  | f :: fs =>
      (if (startRow r <=? i) && (i <? endRow r) then normalize i f else [])
        ++ separateFrom (S i) fs r
  end.

(** Modelled from the spec: [separateGeojsonFeatures] of [./geojson]
    (section 4.3) as a pure function; without a range every feature is
    processed. *)
Definition separated (features : list Feature) (dataRange : option DataRange)
  (k : BucketKey) : list GeomRecord :=
  let r := from_option id (mkRange 0 (length features)) dataRange in
  filter (fun d => shapeKind (shape d) = k) (separateFrom 0 features r).

(** Modelled from the spec: the slice located by [replaceInRange] of
    [../utils] (section 4.4, step 1).  The sequential scan skips the
    records that precede the range and then takes the records that
    precede its end. *)
Fixpoint countBefore (row : nat) (data : list GeomRecord) : nat :=
  match data with
  | [] => 0
  | d :: ds => if source_index d <? row then S (countBefore row ds) else 0
  end.

Definition sliceStart (data : list GeomRecord) (r : DataRange) : nat :=
  countBefore (startRow r) data.

Definition sliceEnd (data : list GeomRecord) (r : DataRange) : nat :=
  sliceStart data r + countBefore (endRow r) (drop (sliceStart data r) data).

(** Modelled from the spec: the splice of section 4.4, step 3. *)
Definition spliced (data : list GeomRecord) (r : DataRange)
  (replace : list GeomRecord) : list GeomRecord :=
  take (sliceStart data r) data ++ replace ++ drop (sliceEnd data r) data.

(** Modelled from the spec: the report entry of section 4.4, step 4. *)
Definition report (data : list GeomRecord) (r : DataRange)
  (replace : list GeomRecord) : DataRange :=
  mkRange (sliceStart data r) (sliceStart data r + length replace).
End Separator.

(** ** Arrays on the heap and the calls made to imported helpers *)

(** JavaScript arrays are objects with identity: a bucket is a location in
    a store of arrays, so that copying ([slice]) and in-place mutation can
    be told apart. *)
Definition loc := nat.

(** Calls to the functions imported by the layer, in program order. *)
Inductive Call :=
| call_getGeojsonFeatures
| call_separateGeojsonFeatures (dataRange : option DataRange)
| call_replaceInRange (data : loc) (dataRange : DataRange)
| call_createLayerPropsFromFeatures
| call_createLayerPropsFromBinary.

Global Instance Call_eq_dec : EqDecision Call.
Proof. solve_decision. Defined.

Record World {Coord Props : Type} := mkWorld {
  heap : gmap loc (list (GeomRecord Coord Props));
  calls : list Call
}.
Arguments World : clear implicits.

(** Layer state ([this.state]); a field that was never set is [None].
    [binary] keeps the truthiness of the value stored by [updateState]. *)
Record State {LP : Type} := mkState {
  layerProps : option LP;
  features : Partial loc;
  featuresDiff : Partial (list DataRange);
  binary : option bool
}.
Arguments State : clear implicits.

(** The imported functions whose results are opaque to the layer;
    [createLayerPropsFromFeatures] may read the arrays it is given. *)
Class Externals (Coord Props LP : Type) := {
  getGeojsonFeatures : DataValue Coord Props -> list (Feature Coord Props);
  createLayerPropsFromFeatures :
    gmap loc (list (GeomRecord Coord Props)) ->
    Partial loc -> Partial (list DataRange) -> LP;
  createLayerPropsFromBinary : DataValue Coord Props -> LP
}.

Section Update.
Context {Coord Props LP : Type} `{!Externals Coord Props LP}.
#[local] Abbreviation Feature := (Feature Coord Props).
#[local] Abbreviation GeomRecord := (GeomRecord Coord Props).
#[local] Abbreviation World := (World Coord Props).
#[local] Abbreviation State := (State LP).
#[local] Abbreviation DataValue := (DataValue Coord Props).

(** State-passing computations over the world. *)
Definition M (A : Type) : Type := World -> A * World.

Definition ret {A} (a : A) : M A := fun w => (a, w).

Definition bind {A B} (m : M A) (k : A -> M B) : M B :=
  fun w => let (a, w') := m w in k a w'.

#[global] Instance M_ret : MRet M := @ret.
#[global] Instance M_bind : MBind M := fun A B k m => bind m k.

Fixpoint foldM {A S} (f : S -> A -> M S) (s : S) (l : list A) : M S :=
  match l with
  | [] => ret s
  | x :: xs => s' ← f s x ; foldM f s' xs
  end.

Definition logCall (c : Call) : M unit :=
  fun w => (tt, mkWorld _ _ (heap w) (calls w ++ [c])).

Definition getHeap : M (gmap loc (list GeomRecord)) :=
  fun w => (heap w, w).

(** Contents of the array at [l]. *)
Definition readArray (l : loc) (w : World) : list GeomRecord :=
  default [] (heap w !! l).

(** A new array object. *)
Definition allocArray (v : list GeomRecord) : M loc :=
  fun w => let l := fresh (dom (heap w)) in
           (l, mkWorld _ _ (<[l := v]> (heap w)) (calls w)).

(** [a.slice()]: a shallow copy in a new array object. *)
Definition array_slice (l : loc) : M loc :=
  fun w => allocArray (readArray l w) w.

(** Modelled from the spec: [separateGeojsonFeatures(features, wrapFeature,
    dataRange)] of [./geojson] (section 4.3) as called by the layer; the
    three buckets [separated] are returned in new arrays.  (The outline
    bucket of section 3 is derived from the polygon bucket and has no key of
    its own here.) *)
Definition separateGeojsonFeatures (fs : list Feature)
  (dataRange : option DataRange) : M (BucketKey -> loc) :=
  logCall (call_separateGeojsonFeatures dataRange);;
  p ← allocArray (separated fs dataRange pointBucket);
  l ← allocArray (separated fs dataRange lineBucket);
  g ← allocArray (separated fs dataRange polygonBucket);
  ret (fun k => match k with
                | pointBucket => p
                | lineBucket => l
                | polygonBucket => g
                end).

(** Modelled from the spec: [replaceInRange({data, getIndex, dataRange,
    replace})] of [../utils] (section 4.4) as called by the layer, with
    [getIndex = f => f.__source.index]; it splices [replace] into the array
    [data] in place and returns the report entry. *)
Definition replaceInRange (data : loc) (dataRange : DataRange) (replace : loc)
  : M DataRange :=
  fun w =>
    let d := readArray data w in
    let rep := readArray replace w in
    (report d dataRange rep,
     mkWorld _ _ (<[data := spliced d dataRange rep]> (heap w))
             (calls w ++ [call_replaceInRange data dataRange])).

(** [featuresDiff[key].push(entry)]. *)
Definition partial_push (fd : Partial (list DataRange)) (k : BucketKey)
  (entry : DataRange) : Partial (list DataRange) :=
  match fd k with
  | Some l => partial_set fd k (l ++ [entry])
  | None => fd
  end.

(** Body of the first loop of the range branch:
    [newFeatures[key] = oldFeatures[key].slice(); featuresDiff[key] = []]. *)
Definition copyBody (oldFeatures : Partial loc)
  (s : Partial loc * Partial (list DataRange)) (key : BucketKey)
  : M (Partial loc * Partial (list DataRange)) :=
  let '(newFeatures, featuresDiff) := s in
  match oldFeatures key with
  | Some old =>
      c ← array_slice old;
      mret (partial_set newFeatures key c, partial_set featuresDiff key [])
  | None => mret (newFeatures, featuresDiff)
  end.

(** First loop of the range branch: every previous bucket is copied. *)
Definition copyBuckets (oldFeatures : Partial loc)
  : M (Partial loc * Partial (list DataRange)) :=
  foldM (copyBody oldFeatures) (partial_empty, partial_empty) (keys_of oldFeatures).

(** Body of the loop over the keys inside one range:
    [featuresDiff[key].push(replaceInRange({data: newFeatures[key], ...,
    dataRange, replace: partialFeatures[key]}))]. *)
Definition replaceBody (dataRange : DataRange) (newFeatures : Partial loc)
  (partialFeatures : BucketKey -> loc)
  (featuresDiff : Partial (list DataRange)) (key : BucketKey)
  : M (Partial (list DataRange)) :=
  match newFeatures key with
  | Some data =>
      entry ← replaceInRange data dataRange (partialFeatures key);
      mret (partial_push featuresDiff key entry)
  | None => mret featuresDiff
  end.

(** Body of the loop over [changeFlags.dataChanged]. *)
Definition applyRange (fs : list Feature) (oldFeatures newFeatures : Partial loc)
  (featuresDiff : Partial (list DataRange)) (dataRange : DataRange)
  : M (Partial (list DataRange)) :=
  partialFeatures ← separateGeojsonFeatures fs (Some dataRange);
  foldM (replaceBody dataRange newFeatures partialFeatures)
        featuresDiff (keys_of oldFeatures).

(** The two branches on [Array.isArray(changeFlags.dataChanged)]. *)
Definition buildFeatures (fs : list Feature) (dataChanged : DataChanged)
  (oldFeatures : Partial loc) : M (Partial loc * Partial (list DataRange)) :=
  match dataChanged with
  | DCRanges ranges =>
      '(newFeatures, featuresDiff) ← copyBuckets oldFeatures;
      featuresDiff ←
        foldM (applyRange fs oldFeatures newFeatures) featuresDiff ranges;
      mret (newFeatures, featuresDiff)
  | _ =>
      sep ← separateGeojsonFeatures fs None;
      mret (fun k => Some (sep k), partial_empty)
  end.

Definition _updateStateJSON (data : DataValue) (dataChanged : DataChanged)
  (st : State) : M State :=
  logCall call_getGeojsonFeatures;;
  let fs := getGeojsonFeatures data in
  '(newFeatures, featuresDiff) ← buildFeatures fs dataChanged (features st);
  logCall call_createLayerPropsFromFeatures;;
  h ← getHeap;
  let layerProps := createLayerPropsFromFeatures h newFeatures featuresDiff in
  mret (mkState _ (Some layerProps) newFeatures featuresDiff (binary st)).

Definition _updateStateBinary (data : DataValue) (st : State) : M State :=
  logCall call_createLayerPropsFromBinary;;
  ret (mkState _ (Some (createLayerPropsFromBinary data))
               (features st) (featuresDiff st) (binary st)).

(** JavaScript truthiness of the [data] prop. *)
Definition data_truthy (data : DataValue) : bool :=
  match data with
  | DNullish => false
  | _ => true
  end.

(** [data && 'points' in data && 'polygons' in data && 'lines' in data]. *)
Definition isBinary (data : DataValue) : bool :=
  data_truthy data && has_key "points" data && has_key "polygons" data
    && has_key "lines" data.

Definition updateState (data : DataValue) (dataChanged : DataChanged)
  (st : State) : M State :=
  if negb (dataChanged_truthy dataChanged) then ret st
  else
    let binary := isBinary data in
    let st := mkState _ (layerProps st) (features st) (featuresDiff st)
                      (Some binary) in
    if binary then _updateStateBinary data st
    else _updateStateJSON data dataChanged st.

(** [initializeState()]. *)
Definition initializeState : State :=
  mkState _ None partial_empty partial_empty None.
End Update.

(** ** Picking *)

(** The picking info returned by [super.getPickingInfo]: [index] is a
    number or [undefined] ([None]); [featureType] is [undefined] until the
    layer sets it. *)
Record PickingInfo := mkPickingInfo {
  index : option Z;
  sourceLayer_id : string;
  featureType : option string
}.

Definition FEATURE_TYPES : list string := ["points"; "linestrings"; "polygons"].

(** [s.startsWith(p)]. *)
Definition startsWith (s p : string) : bool := String.prefix p s.

(** The template literal [`${id}-${ft}-`]. *)
Definition featureTypePrefix (id ft : string) : string :=
  String.append id (String.append "-" (String.append ft "-")).

(** The template literal [`${id}-points-text`]. *)
Definition pointsTextPrefix (id : string) : string :=
  String.append id "-points-text".

(** [index >= 0] on a number or [undefined]. *)
Definition index_nonneg (i : option Z) : bool :=
  match i with
  | Some z => (0 <=? z)%Z
  | None => false
  end.

(** [data.points.globalFeatureIds.value]; [None] when the property chain
    hits [undefined] (a [TypeError] in the source). *)
Definition points_globalFeatureIds {Coord Props} (data : DataValue Coord Props)
  : option (list Z) :=
  match data with
  | DObject o =>
      match o !! "points" with
      | Some (FBinary b) => Some (globalFeatureIds_value b)
      | _ => None
      end
  | _ => None
  end.

(** Indexing a typed array: [undefined] ([None]) outside its bounds. *)
Definition typedArray_get (value : list Z) (i : option Z) : option Z :=
  match i with
  | Some z => if (0 <=? z)%Z then value !! Z.to_nat z else None
  | None => None
  end.

(** [getPickingInfo(params)], given [info = super.getPickingInfo(params)];
    the result is [None] when the source throws. *)
Definition getPickingInfo {Coord Props} (id : string) (binary : option bool)
  (data : DataValue Coord Props) (info : PickingInfo) : option PickingInfo :=
  let i := index info in
  let sourceLayer := sourceLayer_id info in
  let ft := List.find (fun ft => startsWith sourceLayer (featureTypePrefix id ft))
                      FEATURE_TYPES in
  if index_nonneg i && startsWith sourceLayer (pointsTextPrefix id)
       && default false binary
  then
    value ← points_globalFeatureIds data;
    Some (mkPickingInfo (typedArray_get value i) sourceLayer ft)
  else Some (mkPickingInfo i sourceLayer ft).

(** ** Accessors *)

(** The [info] argument of an accessor call. *)
Record AccessorInfo {BinaryData : Type} := mkAccessorInfo {
  info_data : BinaryData;
  info_index : Z
}.
Arguments AccessorInfo : clear implicits.

(** Results paired with the calls made to [binaryToFeatureForAccesor]
    while computing them, in program order. *)
Definition Traced (BinaryData A : Type) : Type := A * list (BinaryData * Z).

(** An accessor is a constant or a function of the object and the info. *)
Inductive Accessor (BinaryData In Out : Type) :=
| AccConst (v : Out)
| AccFun (f : In -> AccessorInfo BinaryData -> Traced BinaryData Out).
Arguments AccConst {BinaryData In Out} v.
Arguments AccFun {BinaryData In Out} f.

(** What the accessor wrapper needs from outside the layer. *)
Class AccessorExternals (BinaryData In Out : Type) := {
  binaryToFeatureForAccesor : BinaryData -> Z -> In;
  super_getSubLayerAccessor :
    Accessor BinaryData In Out -> Accessor BinaryData In Out
}.

Section Accessors.
Context {BinaryData In Out : Type}.

(** A call of [binaryToFeatureForAccesor(data, index)], recorded. *)
Definition callBinaryToFeature `{!AccessorExternals BinaryData In Out}
  (data : BinaryData) (i : Z) : Traced BinaryData In :=
  (binaryToFeatureForAccesor data i, [(data, i)]).

Definition traced_bind {A B} (m : Traced BinaryData A)
  (k : A -> Traced BinaryData B) : Traced BinaryData B :=
  let (a, t1) := m in let (b, t2) := k a in (b, t1 ++ t2).

Definition getSubLayerAccessor `{!AccessorExternals BinaryData In Out}
  (binary : option bool) (accessor : Accessor BinaryData In Out)
  : Accessor BinaryData In Out :=
  match default false binary, accessor with
  | true, AccFun f =>
      AccFun (fun object info =>
                traced_bind (callBinaryToFeature (info_data info) (info_index info))
                            (fun feature => f feature info))
  | _, _ => super_getSubLayerAccessor accessor
  end.

(** Calling an accessor: a constant is used as is. *)
Definition callAccessor (a : Accessor BinaryData In Out) (object : In)
  (info : AccessorInfo BinaryData) : Traced BinaryData Out :=
  match a with
  | AccConst v => (v, [])
  | AccFun f => f object info
  end.

(** A run of successive calls of one accessor. *)
Fixpoint callAccessorMany (a : Accessor BinaryData In Out)
  (args : list (In * AccessorInfo BinaryData)) : Traced BinaryData (list Out) :=
  match args with
  | [] => ([], [])
  | (object, info) :: rest =>
      traced_bind (callAccessor a object info) (fun r =>
      traced_bind (callAccessorMany a rest) (fun rs => (r :: rs, [])))
  end.
End Accessors.

(** ** Point sub-layers *)

(** [s.split(sep)] for a one-character separator. *)
Fixpoint split (sep : ascii) (s : string) : list string :=
  match s with
  | EmptyString => [EmptyString]
  | String c s' =>
      let r := split sep s' in
      if Ascii.eqb c sep then EmptyString :: r
      else match r with
           | [] => [String c EmptyString]
           | t :: ts => String c t :: ts
           end
  end.

(** [set.add(x)] on an insertion-ordered [Set]. *)
Definition Set_add (acc : list string) (x : string) : list string :=
  if bool_decide (x ∈ acc) then acc else acc ++ [x].

(** [new Set(l)]: the distinct elements of [l] in order of first occurrence. *)
Definition Set_new (l : list string) : list string := fold_left Set_add l [].

(** [layerProps.points.data]: wrapped point records on the object path, or
    the binary points structure with its named attributes. *)
Inductive PointsData {Coord Props Attr : Type} :=
| PointRecords (rs : list (GeomRecord Coord Props))
| PointBinary (attributes : gmap string Attr).
Arguments PointsData : clear implicits.

(** [layerProps.points]. *)
Record PointsLayerProps {Coord Props Attr : Type} := mkPointsLayerProps {
  points_data : option (PointsData Coord Props Attr)
}.
Arguments PointsLayerProps : clear implicits.

(** An entry of the [POINT_LAYER] table. *)
Record PointLayerMapping {LayerClass ForwardMap : Type} := mkMapping {
  mapping_type : LayerClass;
  mapping_props : ForwardMap
}.
Arguments PointLayerMapping : clear implicits.

(** What the property read [POINT_LAYER[type]] yields when it is not
    [undefined]: an entry of the table itself, or a member that the table,
    an object literal, inherits from [Object.prototype].  Such a member is a
    function or an object, hence truthy, and has neither a [type] nor a
    [props] property. *)
Inductive PointLayerValue {LayerClass ForwardMap : Type} :=
| OwnEntry (m : PointLayerMapping LayerClass ForwardMap)
| InheritedMember.
Arguments PointLayerValue : clear implicits.

(** [PointLayerMapping.type], [undefined] for an inherited member. *)
Definition value_type {LayerClass ForwardMap}
  (v : PointLayerValue LayerClass ForwardMap) : option LayerClass :=
  match v with
  | OwnEntry m => Some (mapping_type m)
  | InheritedMember => None
  end.

(** [PointLayerMapping.props], [undefined] for an inherited member. *)
Definition value_props {LayerClass ForwardMap}
  (v : PointLayerValue LayerClass ForwardMap) : option ForwardMap :=
  match v with
  | OwnEntry m => Some (mapping_props m)
  | InheritedMember => None
  end.

(** A constructed point sub-layer; [layer_forwarded] is the mapping that
    was handed to [forwardProps], which takes any mapping, also [undefined]. *)
Record PointLayer {Coord Props Attr LayerClass ForwardMap : Type} := mkPointLayer {
  layer_id : string;
  layer_class : LayerClass;
  layer_forwarded : option ForwardMap;
  layer_highlightedObjectIndex : option Z;
  layer_props : option (PointsLayerProps Coord Props Attr)
}.
Arguments PointLayer : clear implicits.

(** The sub-layer map and the composite-layer methods used when rendering.
    [getSubLayerClass(id, DefaultLayerClass)] is also called with the default
    class [undefined]. *)
Class RenderExternals (Coord Props Attr LayerClass ForwardMap : Type) := {
  POINT_LAYER_circle : PointLayerMapping LayerClass ForwardMap;
  POINT_LAYER_icon : PointLayerMapping LayerClass ForwardMap;
  POINT_LAYER_text : PointLayerMapping LayerClass ForwardMap;
  shouldRenderSubLayer : string -> option (PointsData Coord Props Attr) -> bool;
  getSubLayerClass : string -> option LayerClass -> option LayerClass
}.

(** The property names that every object literal inherits from
    [Object.prototype]. *)
Definition Object_prototype_members : list string :=
  ["constructor"; "hasOwnProperty"; "isPrototypeOf"; "propertyIsEnumerable";
   "toLocaleString"; "toString"; "valueOf"; "__proto__";
   "__defineGetter__"; "__defineSetter__"; "__lookupGetter__"; "__lookupSetter__"].

Section Render.
Context {Coord Props Attr LayerClass ForwardMap : Type}.
Context `{!RenderExternals Coord Props Attr LayerClass ForwardMap}.
#[local] Abbreviation PointsLayerProps := (PointsLayerProps Coord Props Attr).
#[local] Abbreviation PointLayer :=
  (PointLayer Coord Props Attr LayerClass ForwardMap).

(** The point layer types named by the layer's documentation and defaults. *)
Definition knownPointTypes : list string := ["circle"; "icon"; "text"].

(** The property read [POINT_LAYER[type]] on the table with the entries
    [circle], [icon] and [text]: an own entry, else a member found on the
    prototype, else [undefined]. *)
Definition POINT_LAYER (type : string)
  : option (PointLayerValue LayerClass ForwardMap) :=
  if String.eqb type "circle" then Some (OwnEntry POINT_LAYER_circle)
  else if String.eqb type "icon" then Some (OwnEntry POINT_LAYER_icon)
  else if String.eqb type "text" then Some (OwnEntry POINT_LAYER_text)
  else if bool_decide (type ∈ Object_prototype_members) then Some InheritedMember
  else None.

(** [data.findIndex(d => d.__source.index === target)], [-1] if absent. *)
Fixpoint findIndexFrom (i : Z) (rs : list (GeomRecord Coord Props)) (target : Z) : Z :=
  match rs with
  | [] => (-1)%Z
  | d :: ds =>
      if (Z.of_nat (source_index d) =? target)%Z then i
      else findIndexFrom (i + 1)%Z ds target
  end.

(** The re-mapping of [highlightedObjectIndex] on the object path; [None]
    when [layerProps.points.data] cannot be searched (the source throws). *)
Definition remapHighlighted (binary : bool) (highlightedObjectIndex : option Z)
  (points : option PointsLayerProps) : option (option Z) :=
  match binary, highlightedObjectIndex with
  | false, Some target =>
      match points with
      | Some p =>
          match points_data p with
          | Some (PointRecords rs) => Some (Some (findIndexFrom 0 rs target))
          | _ => None
          end
      | None => None
      end
  | _, _ => Some highlightedObjectIndex
  end.

(** [layerProps.points?.data]. *)
Definition points_data_opt (points : option PointsLayerProps) :=
  p ← points; points_data p.

(** The props handed to the text sub-layer on the binary path: the
    [instancePickingColors] attribute is left out; [None] when
    [pointsLayerProps.data.attributes] cannot be read. *)
Definition withoutPickingColors (points : option PointsLayerProps)
  : option PointsLayerProps :=
  match points_data_opt points with
  | Some (PointBinary attributes) =>
      Some (mkPointsLayerProps _ _ _
              (Some (PointBinary (delete "instancePickingColors" attributes))))
  | _ => None
  end.

(** One iteration of the loop over the set of types: [None] when the source
    throws, otherwise the layers pushed (none or one). *)
Definition renderPointType (binary : bool) (highlightedObjectIndex : option Z)
  (points : option PointsLayerProps) (type : string) : option (list PointLayer) :=
  let id := String.append "points-" type in
  match POINT_LAYER type with
  | None => Some []
  | Some PointLayerMapping =>
      if shouldRenderSubLayer id (points_data_opt points) then
        match getSubLayerClass id (value_type PointLayerMapping) with
        | None => Some []
        | Some PointsLayer =>
            pointsLayerProps ←
              (if String.eqb type "text" && binary
               then Some <$> withoutPickingColors points
               else Some points);
            Some [mkPointLayer _ _ _ _ _ id PointsLayer
                    (value_props PointLayerMapping)
                    highlightedObjectIndex pointsLayerProps]
        end
      else Some []
  end.

(** The loop [for (const type of types)]. *)
Fixpoint renderPointTypes (binary : bool) (highlightedObjectIndex : option Z)
  (points : option PointsLayerProps) (types : list string)
  : option (list PointLayer) :=
  match types with
  | [] => Some []
  | type :: rest =>
      ls ← renderPointType binary highlightedObjectIndex points type;
      more ← renderPointTypes binary highlightedObjectIndex points rest;
      Some (ls ++ more)
  end.

Definition _renderPointLayers (pointType : string)
  (highlightedObjectIndex : option Z) (binary : option bool)
  (points : option PointsLayerProps) : option (list PointLayer) :=
  let binary := default false binary in
  highlightedObjectIndex ← remapHighlighted binary highlightedObjectIndex points;
  let types := Set_new (split "+"%char pointType) in
  renderPointTypes binary highlightedObjectIndex points types.
End Render.

(** ** Range updates as functions on one bucket *)

Section RangeFold.
Context {Coord Props : Type}.
#[local] Abbreviation Feature := (Feature Coord Props).
#[local] Abbreviation GeomRecord := (GeomRecord Coord Props).

(** The bucket [b] of kind [k] after the ranges [rs] have been spliced in,
    one after the other, each against the result of the previous ones. *)
Fixpoint splicedAll (fs : list Feature) (k : BucketKey) (b : list GeomRecord)
  (rs : list DataRange) : list GeomRecord :=
  match rs with
  | [] => b
  | r :: rs' => splicedAll fs k (spliced b r (separated fs (Some r) k)) rs'
  end.

(** The report entries produced on the way. *)
Fixpoint reportsAll (fs : list Feature) (k : BucketKey) (b : list GeomRecord)
  (rs : list DataRange) : list DataRange :=
  match rs with
  | [] => []
  | r :: rs' =>
      report b r (separated fs (Some r) k)
        :: reportsAll fs k (spliced b r (separated fs (Some r) k)) rs'
  end.
End RangeFold.

(** The [replaceInRange] calls of one range, one per key of the previous
    state, in key order. *)
Definition replaceCalls (ks : list BucketKey) (newFeatures : Partial loc)
  (r : DataRange) : list Call :=
  omap (fun k => (fun l => call_replaceInRange l r) <$> newFeatures k) ks.

(** The buckets named by a state are allocated arrays. *)
Definition wf_state {Coord Props LP} (st : State LP) (w : World Coord Props) : Prop :=
  forall k l, features st k = Some l -> l ∈ dom (heap w).

(** A computation only adds calls satisfying [ok] to the record of calls. *)
Definition appends {Coord Props A} (ok : Call -> Prop) (m : @M Coord Props A) : Prop :=
  forall w, exists ext, calls (m w).2 = calls w ++ ext /\ Forall ok ext.

(** Calls that belong to the object path. *)
Definition objectPathCall (c : Call) : Prop := c ≠ call_createLayerPropsFromBinary.

(** The contents of the bucket of kind [k] named by a state. *)
Definition bucketContents {Coord Props LP} (st : State LP) (w : World Coord Props)
  (k : BucketKey) : option (list (GeomRecord Coord Props)) :=
  (fun l => readArray l w) <$> features st k.

(** ** Sample inputs *)

(** Helpers for integer coordinates and no properties: an array is its own
    feature list, a [FeatureCollection] object yields its [features]. *)
#[local] Instance sampleExternals : Externals Z unit unit := {|
  getGeojsonFeatures := fun d =>
    match d with
    | DArray fs => fs
    | DObject o =>
        match o !! "features" with
        | Some (FFeatures fs) => fs
        | _ => []
        end
    | DNullish => []
    end;
  createLayerPropsFromFeatures := fun _ _ _ => tt;
  createLayerPropsFromBinary := fun _ => tt
|}.

Definition samplePoint (x y : Z) : Feature Z unit :=
  mkFeature (Some (Point [x; y])) tt.

Definition sampleMultiPoint : Feature Z unit :=
  mkFeature (Some (MultiPoint [[0; 0]; [1; 1]]%Z)) tt.

Definition samplePolygon : Feature Z unit :=
  mkFeature (Some (Polygon [[[0; 0]; [1; 0]; [1; 1]; [0; 0]]%Z])) tt.

Definition sampleWorld : World Z unit := mkWorld _ _ ∅ [].

(** The collection of the end-to-end example, rebuilt in full, and then
    updated for the range [0,1) after its first feature was replaced. *)
Definition samplePrior : list (Feature Z unit) := [sampleMultiPoint; samplePolygon].
Definition samplePost : list (Feature Z unit) := [samplePoint 5 5; samplePolygon].

Definition sampleRebuilt : State unit * World Z unit :=
  updateState (DArray samplePrior) (DCReason "data changed") initializeState sampleWorld.

Definition sampleRanged : State unit * World Z unit :=
  updateState (DArray samplePost) (DCRanges [mkRange 0 1])
              sampleRebuilt.1 sampleRebuilt.2.

(** Two points, of which the first is replaced by two other points while
    the changed range is still [0,1). *)
Definition growPrior : list (Feature Z unit) := [samplePoint 0 0; samplePoint 1 1].
Definition growPost : list (Feature Z unit) :=
  [samplePoint 7 7; samplePoint 8 8; samplePoint 1 1].

Definition growRebuilt : State unit * World Z unit :=
  updateState (DArray growPrior) (DCReason "data changed") initializeState sampleWorld.

Definition growRanged : State unit * World Z unit :=
  updateState (DArray growPost) (DCRanges [mkRange 0 1]) growRebuilt.1 growRebuilt.2.

Definition growFull : State unit * World Z unit :=
  updateState (DArray growPost) (DCReason "data changed") initializeState sampleWorld.

(** A binary collection with three point primitives. *)
Definition sampleBinary : DataValue Z unit :=
  DObject (<["points" := FBinary (mkBinaryFeature [7; 7; 9]%Z)]>
          (<["lines" := FBinary (mkBinaryFeature [])]>
          (<["polygons" := FBinary (mkBinaryFeature [])]> ∅))).

#[local] Instance sampleAccessorExternals : AccessorExternals unit Z Z := {|
  binaryToFeatureForAccesor := fun _ i => i;
  super_getSubLayerAccessor := fun a => a
|}.

#[local] Instance sampleRenderExternals : RenderExternals Z unit unit string unit := {|
  POINT_LAYER_circle := mkMapping _ _ "ScatterplotLayer" tt;
  POINT_LAYER_icon := mkMapping _ _ "IconLayer" tt;
  POINT_LAYER_text := mkMapping _ _ "TextLayer" tt;
  shouldRenderSubLayer := fun _ d => bool_decide (is_Some d);
  getSubLayerClass := fun _ c => c
|}.

(** Hooks that accept every point sub-layer: [getSubLayerClass] returns the
    default class where there is one and the class 'OverrideLayer', as named
    by an override of the sub-layer's props, where there is none. *)
Definition overridingRenderExternals : RenderExternals Z unit unit string unit := {|
  POINT_LAYER_circle := mkMapping _ _ "ScatterplotLayer" tt;
  POINT_LAYER_icon := mkMapping _ _ "IconLayer" tt;
  POINT_LAYER_text := mkMapping _ _ "TextLayer" tt;
  shouldRenderSubLayer := fun _ d => bool_decide (is_Some d);
  getSubLayerClass := fun _ c => Some (default "OverrideLayer" c)
|}.

Definition samplePointsProps : option (PointsLayerProps Z unit unit) :=
  Some (mkPointsLayerProps _ _ _ (Some (PointRecords []))).

(** The reading of the out-of-range rule that covers every pick: whatever
    the path and the sub-layer, an index beyond the points bucket comes back
    as [undefined] or as a negative number. *)
Definition stale_index_rejected : Prop :=
  forall (id : string) (binary : option bool) (data : DataValue Z unit)
         (info : PickingInfo) (value : list Z) (z : Z),
    points_globalFeatureIds data = Some value ->
    index info = Some z -> (Z.of_nat (length value) <= z)%Z ->
    exists info', getPickingInfo id binary data info = Some info' /\
      (index info' = None \/ exists z', index info' = Some z' /\ (z' < 0)%Z).




(** ** Successive updates *)

Section UpdateMany.
Context {Coord Props LP : Type} `{!Externals Coord Props LP}.

(** The layer's [updateState] called once per entry, each call with the
    [data] prop and the [changeFlags.dataChanged] of that update. *)
Definition updateMany (steps : list (DataValue Coord Props * DataChanged))
  (st : State LP) : @M Coord Props (State LP) :=
  foldM (fun st step => updateState step.1 step.2 st) st steps.
End UpdateMany.

(** ** Auto-highlight *)

(** The template literal [`${this.id}-points-`]. *)
Definition pointLayerIdPrefix (id : string) : string :=
  String.append id "-points-".

(** [_updateAutoHighlight(info)] over the ids of [this.getSubLayers()]: the
    ids of the layers whose [updateAutoHighlight(info)] is called, in
    order. *)
Fixpoint _updateAutoHighlight (id : string) (info : PickingInfo)
  (subLayers : list string) : list string :=
  let sourceIsPoints := bool_decide (featureType info = Some "points") in
  match subLayers with
  | [] => []
  | layer :: rest =>
      if Bool.eqb (startsWith layer (pointLayerIdPrefix id)) sourceIsPoints
      then layer :: _updateAutoHighlight id info rest
      else _updateAutoHighlight id info rest
  end.

(** ** Polygon and line sub-layers *)

(** A value of [updateTriggers]: the boolean stored by the layer, or
    whatever [forwardProps] put there. *)
Inductive Trigger {T : Type} :=
| TriggerBool (b : bool)
| TriggerValue (t : T).
Arguments Trigger : clear implicits.

(** The result of [forwardProps(this, mapping.props)]: the forwarded props
    and their [updateTriggers]. *)
Record Forwarded {V T : Type} := mkForwarded {
  forwarded_props : gmap string V;
  forwarded_updateTriggers : gmap string (Trigger T)
}.
Arguments Forwarded : clear implicits.

(** [layerProps.polygons], [layerProps.polygonsOutline], [layerProps.lines]. *)
Record BucketProps {Data : Type} := mkBucketProps {
  bucket_data : option Data
}.
Arguments BucketProps : clear implicits.

(** A constructed polygon or line sub-layer: [new Layer(forwardedProps,
    this.getSubLayerProps({id, updateTriggers}), layerProps.<bucket>)]. *)
Record SubLayer {V T Data LayerClass : Type} := mkSubLayer {
  sub_id : string;
  sub_class : LayerClass;
  sub_forwarded : Forwarded V T;
  sub_updateTriggers : gmap string (Trigger T);
  sub_props : option (BucketProps Data)
}.
Arguments SubLayer : clear implicits.

(** The sub-layer map entries and composite-layer methods used for the
    polygon and line sub-layers. *)
Class SubLayerExternals (V T Data LayerClass : Type) := {
  POLYGON_LAYER_type : LayerClass;
  LINE_LAYER_type : LayerClass;
  forwardProps_POLYGON_LAYER : Forwarded V T;
  forwardProps_LINE_LAYER : Forwarded V T;
  shouldRenderSubLayerOf : string -> option Data -> bool;
  getSubLayerClassOf : string -> LayerClass -> option LayerClass
}.

Section RenderPolygonsLines.
Context {V T Data LayerClass : Type} `{!SubLayerExternals V T Data LayerClass}.
#[local] Abbreviation SubLayer := (SubLayer V T Data LayerClass).
#[local] Abbreviation BucketProps := (BucketProps Data).

(** [layerProps.<bucket>?.data]. *)
Definition bucket_data_opt (b : option BucketProps) : option Data :=
  p ← b; bucket_data p.

(** [shouldRenderSubLayer(id, data) && getSubLayerClass(id, type)]. *)
Definition subLayerClassIfRendered (id : string) (b : option BucketProps)
  (type : LayerClass) : option LayerClass :=
  if shouldRenderSubLayerOf id (bucket_data_opt b)
  then getSubLayerClassOf id type
  else None.

(** [_renderPolygonLayer()]; [None] is [null]. *)
Definition _renderPolygonLayer (extruded wireframe : bool)
  (polygons : option BucketProps) : option SubLayer :=
  let id := "polygons-fill" in
  match subLayerClassIfRendered id polygons POLYGON_LAYER_type with
  | Some PolygonFillLayer =>
      let forwardedProps := forwardProps_POLYGON_LAYER in
      let useLineColor := extruded && wireframe in
      let props :=
        if useLineColor then forwarded_props forwardedProps
        else delete "getLineColor" (forwarded_props forwardedProps) in
      let updateTriggers :=
        <["lineColors" := TriggerBool useLineColor]>
          (forwarded_updateTriggers forwardedProps) in
      Some (mkSubLayer _ _ _ _ id PolygonFillLayer
              (mkForwarded _ _ props updateTriggers) updateTriggers polygons)
  | None => None
  end.

(** [_renderLineLayers()]; [None] is [null], and inside the pair [None] is
    the [false] left in the array for a layer that is not rendered. *)
Definition _renderLineLayers (extruded stroked : bool)
  (polygonsOutline lines : option BucketProps)
  : option (option SubLayer * option SubLayer) :=
  let polygonStrokeLayerId := "polygons-stroke" in
  let lineStringsLayerId := "linestrings" in
  let PolygonStrokeLayer :=
    if negb extruded && stroked
    then subLayerClassIfRendered polygonStrokeLayerId polygonsOutline LINE_LAYER_type
    else None in
  let LineStringsLayer :=
    subLayerClassIfRendered lineStringsLayerId lines LINE_LAYER_type in
  match PolygonStrokeLayer, LineStringsLayer with
  | None, None => None
  | _, _ =>
      let forwardedProps := forwardProps_LINE_LAYER in
      Some ((fun c => mkSubLayer _ _ _ _ polygonStrokeLayerId c forwardedProps
                        (forwarded_updateTriggers forwardedProps) polygonsOutline)
              <$> PolygonStrokeLayer,
            (fun c => mkSubLayer _ _ _ _ lineStringsLayerId c forwardedProps
                        (forwarded_updateTriggers forwardedProps) lines)
              <$> LineStringsLayer)
  end.
End RenderPolygonsLines.

(** The array returned by [renderLayers()]; [None] in a slot is the falsy
    value left there. *)
Record Rendered {Coord Props Attr LayerClass ForwardMap V T Data : Type} := mkRendered {
  fill_below : option (SubLayer V T Data LayerClass);
  lineLayers : option (option (SubLayer V T Data LayerClass)
                       * option (SubLayer V T Data LayerClass));
  pointLayers : list (PointLayer Coord Props Attr LayerClass ForwardMap);
  fill_above : option (SubLayer V T Data LayerClass)
}.
Arguments Rendered : clear implicits.

Section RenderLayers.
Context {Coord Props Attr LayerClass ForwardMap V T Data : Type}.
Context `{!RenderExternals Coord Props Attr LayerClass ForwardMap}.
Context `{!SubLayerExternals V T Data LayerClass}.

(** [renderLayers()]; [None] when [_renderPointLayers] throws. *)
Definition renderLayers (extruded wireframe stroked : bool) (pointType : string)
  (highlightedObjectIndex : option Z) (binary : option bool)
  (polygons polygonsOutline lines : option (BucketProps Data))
  (points : option (PointsLayerProps Coord Props Attr))
  : option (Rendered Coord Props Attr LayerClass ForwardMap V T Data) :=
  let polygonFillLayer := _renderPolygonLayer extruded wireframe polygons in
  let lineLayers := _renderLineLayers extruded stroked polygonsOutline lines in
  pointLayers ← _renderPointLayers pointType highlightedObjectIndex binary points;
  Some (mkRendered _ _ _ _ _ _ _ _
          (if negb extruded then polygonFillLayer else None)
          lineLayers
          pointLayers
          (if extruded then polygonFillLayer else None)).

(** The ids of the layers present in the rendered array, in array order. *)
Definition renderedIds
  (r : Rendered Coord Props Attr LayerClass ForwardMap V T Data) : list string :=
  option_list (sub_id <$> fill_below r)
  ++ match lineLayers r with
     | Some (stroke, lineStrings) =>
         option_list (sub_id <$> stroke) ++ option_list (sub_id <$> lineStrings)
     | None => []
     end
  ++ map layer_id (pointLayers r)
  ++ option_list (sub_id <$> fill_above r).
End RenderLayers.

(** ** Sample inputs for the sub-layers *)

#[local] Instance sampleSubLayerExternals : SubLayerExternals Z Z unit string := {|
  POLYGON_LAYER_type := "SolidPolygonLayer";
  LINE_LAYER_type := "PathLayer";
  forwardProps_POLYGON_LAYER :=
    mkForwarded _ _ (<["getLineColor" := 1%Z]> (<["getFillColor" := 2%Z]> ∅))
                    (<["getFillColor" := TriggerValue 3%Z]> ∅);
  forwardProps_LINE_LAYER :=
    mkForwarded _ _ (<["getColor" := 4%Z]> ∅) ∅;
  shouldRenderSubLayerOf := fun _ d => bool_decide (is_Some d);
  getSubLayerClassOf := fun _ c => Some c
|}.

Definition sampleBucketProps : option (BucketProps unit) :=
  Some (mkBucketProps _ (Some tt)).

Definition sampleBinaryPoints : option (PointsLayerProps Z unit unit) :=
  Some (mkPointsLayerProps _ _ _
          (Some (PointBinary (<["instancePickingColors" := tt]>
                              (<["getPosition" := tt]> ∅))))).

Definition sampleRecords : list (GeomRecord Z unit) :=
  [mkGeomRecord 0 0 (SPoint [0; 0]%Z) sampleMultiPoint;
   mkGeomRecord 0 1 (SPoint [1; 1]%Z) sampleMultiPoint;
   mkGeomRecord 2 0 (SPoint [5; 5]%Z) (samplePoint 5 5)].

Definition sampleRecordsProps : PointsLayerProps Z unit unit :=
  mkPointsLayerProps _ _ _ (Some (PointRecords sampleRecords)).

Definition samplePointRecords : option (PointsLayerProps Z unit unit) :=
  Some sampleRecordsProps.

(** A state that names one array under two kinds. *)
Definition aliasedState : State unit :=
  mkState unit None
    (fun k => match k with polygonBucket => None | _ => Some 0 end)
    partial_empty None.

Definition aliasedWorld : World Z unit := mkWorld _ _ (<[0 := []]> ∅) [].

(** A run of updates: full rebuild, range update, binary data, no change. *)
Definition sampleSteps : list (DataValue Z unit * DataChanged) :=
  [(DArray samplePrior, DCReason "data changed");
   (DArray samplePost, DCRanges [mkRange 0 1]);
   (sampleBinary, DCReason "data changed");
   (DArray samplePost, DCFalse)].

(** * Properties *)

Section UpdateFacts.
Context {Coord Props LP : Type} `{!Externals Coord Props LP}.
#[local] Abbreviation World := (World Coord Props).
#[local] Abbreviation State := (State LP).
#[local] Abbreviation DataValue := (DataValue Coord Props).

(** C9: when [changeFlags.dataChanged] is falsy, [updateState] returns at
    once: the state ([features], [featuresDiff], [layerProps], [binary])
    and the world (arrays, helper calls) are exactly as before. *)
Theorem updateState_no_change (data : DataValue) (dc : DataChanged)
  (st : State) (w : World) :
  dataChanged_truthy dc = false ->
  updateState data dc st w = (st, w).
Proof.
  intros Hf. unfold updateState. rewrite Hf. reflexivity.
Qed.
End UpdateFacts.

Section PickingFacts.
Context {Coord Props : Type}.
#[local] Abbreviation DataValue := (DataValue Coord Props).

Lemma prefix_String_inv (a : ascii) (s1 s : string) :
  String.prefix (String a s1) s = true ->
  exists s', s = String a s' /\ String.prefix s1 s' = true.
Proof.
  destruct s as [|b s]; cbn [String.prefix]; [discriminate|].
  destruct (Ascii.ascii_dec a b) as [->|]; [|discriminate].
  intros H. exists s. split; [reflexivity | assumption].
Qed.

Lemma prefix_append_inv (a b s : string) :
  String.prefix (String.append a b) s = true ->
  exists t, s = String.append a t /\ String.prefix b t = true.
Proof.
  revert s. induction a as [|c a IH]; intros s H.
  - exists s. split; [reflexivity | assumption].
  - cbn [String.append] in H. apply prefix_String_inv in H as (s' & -> & H).
    destruct (IH _ H) as (t & -> & Ht). exists t. split; [reflexivity | assumption].
Qed.

Lemma append_inv_head (a t1 t2 : string) :
  String.append a t1 = String.append a t2 -> t1 = t2.
Proof.
  induction a as [|c a IH]; simpl; intros H; [assumption|].
  injection H as H. auto.
Qed.

Lemma featureTypePrefix_unique (id s ft ft' : string) :
  ft ∈ FEATURE_TYPES -> ft' ∈ FEATURE_TYPES ->
  startsWith s (featureTypePrefix id ft) = true ->
  startsWith s (featureTypePrefix id ft') = true ->
  ft = ft'.
Proof.
  unfold startsWith, featureTypePrefix, FEATURE_TYPES.
  intros Hft Hft' H1 H2.
  apply prefix_append_inv in H1 as (t1 & -> & H1).
  apply prefix_append_inv in H2 as (t2 & E & H2).
  apply append_inv_head in E. subst t2.
  cbn [String.append] in H1, H2.
  apply prefix_String_inv in H1 as (u & -> & H1).
  apply prefix_String_inv in H2 as (u' & E & H2).
  injection E as <-.
  set_unfold.
  destruct Hft as [->|[->|[->|[]]]]; destruct Hft' as [->|[->|[->|[]]]];
    try reflexivity; cbn [String.append] in H1, H2;
    repeat (apply prefix_String_inv in H1 as (? & -> & H1);
            let E := fresh "E" in
            apply prefix_String_inv in H2 as (? & E & H2);
            first [discriminate E | injection E as <-]).
Qed.

Lemma getPickingInfo_fields (id : string) (binary : option bool)
  (data : DataValue) (info info' : PickingInfo) :
  getPickingInfo id binary data info = Some info' ->
  sourceLayer_id info' = sourceLayer_id info /\
  featureType info' =
    List.find (fun ft => startsWith (sourceLayer_id info) (featureTypePrefix id ft))
              FEATURE_TYPES.
Proof.
  unfold getPickingInfo.
  destruct (index_nonneg (index info) && _ && _).
  - destruct (points_globalFeatureIds data); simpl; [|discriminate].
    intros [= <-]. split; reflexivity.
  - intros [= <-]. split; reflexivity.
Qed.


(** C5: on the columnar path a pick from a sub-layer whose id starts with
    [`${id}-points-text`] and whose index is non-negative gets the index
    [points.globalFeatureIds.value[index]]; any other pick (object path,
    negative or undefined index, other sub-layer) keeps the index produced
    by the sub-layer. *)
Theorem getPickingInfo_index (id : string) (data : DataValue) (info : PickingInfo) :
  (forall value z,
     points_globalFeatureIds data = Some value ->
     index info = Some z -> (0 <= z)%Z ->
     startsWith (sourceLayer_id info) (pointsTextPrefix id) = true ->
     index <$> getPickingInfo id (Some true) data info
       = Some (value !! Z.to_nat z)) /\
  (forall binary,
     default false binary = false \/ index_nonneg (index info) = false \/
       startsWith (sourceLayer_id info) (pointsTextPrefix id) = false ->
     index <$> getPickingInfo id binary data info = Some (index info)).
Proof.
  split.
  - intros value z Hv Hi Hz Hs. unfold getPickingInfo.
    rewrite Hi, Hs, Hv. simpl.
    destruct (Z.leb_spec 0 z) as [_|]; [|lia]. reflexivity.
  - intros binary Hcase. unfold getPickingInfo.
    destruct (index_nonneg (index info) && _ && _) eqn:Hc; [|reflexivity].
    apply andb_prop in Hc as [Hc Hb]. apply andb_prop in Hc as [Hn Hs].
    destruct Hcase as [H|[H|H]]; congruence.
Qed.

(** C6 (as amended): on the columnar path, a pick from the points-text
    sub-layer whose index lies beyond the end of
    [points.globalFeatureIds.value] gets the index [undefined], which is no
    number at all; outside that path the layer reads no bucket and the index
    is handed on as it came, in range or not. *)
Theorem getPickingInfo_stale_index (id : string) (data : DataValue)
  (info : PickingInfo) :
  (forall value z,
     points_globalFeatureIds data = Some value ->
     index info = Some z -> (Z.of_nat (length value) <= z)%Z ->
     startsWith (sourceLayer_id info) (pointsTextPrefix id) = true ->
     index <$> getPickingInfo id (Some true) data info = Some None) /\
  (forall binary,
     default false binary = false \/
       startsWith (sourceLayer_id info) (pointsTextPrefix id) = false ->
     index <$> getPickingInfo id binary data info = Some (index info)).
Proof.
  split.
  - intros value z Hv Hi Hz Hs. unfold getPickingInfo.
    rewrite Hi, Hs, Hv. simpl.
    destruct (Z.leb_spec 0 z) as [_|]; [|lia]. simpl.
    f_equal. apply lookup_ge_None. lia.
  - intros binary Hcase. unfold getPickingInfo.
    destruct (index_nonneg (index info) && _ && _) eqn:Hc; [|reflexivity].
    apply andb_prop in Hc as [Hc Hb]. apply andb_prop in Hc as [Hn Hs].
    destruct Hcase as [H|H]; congruence.
Qed.
End PickingFacts.

Section AccessorFacts.
Context {BinaryData In Out : Type} `{!AccessorExternals BinaryData In Out}.

Lemma callAccessorMany_wrapped (g : In -> AccessorInfo BinaryData -> Out)
  (args : list (In * AccessorInfo BinaryData)) :
  callAccessorMany
    (getSubLayerAccessor (Some true) (AccFun (fun x i => (g x i, [])))) args
  = (map (fun a => g (binaryToFeatureForAccesor (info_data a.2) (info_index a.2)) a.2)
         args,
     map (fun a => (info_data a.2, info_index a.2)) args).
Proof.
  induction args as [|[object info] rest IH]; [reflexivity|].
  cbn [callAccessorMany]. rewrite IH. simpl.
  rewrite app_nil_r. reflexivity.
Qed.

(** C7: on the columnar path a function-valued accessor is replaced by a
    wrapper which, each time it is called, calls
    [binaryToFeatureForAccesor(info.data, info.index)] once and applies the
    accessor to that feature and [info] (so [n] calls of the wrapper make
    [n] calls of [binaryToFeatureForAccesor], one per call and in order,
    also for repeated arguments); a non-function accessor, and every
    accessor on the object path, is passed unchanged to the parent class. *)
Theorem getSubLayerAccessor_spec :
  (forall f object info,
     callAccessor (getSubLayerAccessor (Some true) (AccFun f)) object info
     = (let feature := binaryToFeatureForAccesor (info_data info) (info_index info) in
        ((f feature info).1,
         (info_data info, info_index info) :: (f feature info).2))) /\
  (forall (g : In -> AccessorInfo BinaryData -> Out) args,
     callAccessorMany
       (getSubLayerAccessor (Some true) (AccFun (fun x i => (g x i, [])))) args
     = (map (fun a => g (binaryToFeatureForAccesor (info_data a.2) (info_index a.2)) a.2)
            args,
        map (fun a => (info_data a.2, info_index a.2)) args)) /\
  (forall binary (v : Out),
     getSubLayerAccessor binary (AccConst v) = super_getSubLayerAccessor (AccConst v)) /\
  (forall accessor,
     getSubLayerAccessor (Some false) accessor = super_getSubLayerAccessor accessor /\
     getSubLayerAccessor None accessor = super_getSubLayerAccessor accessor).
Proof.
  split; [|split; [|split]].
  - intros f object info. simpl. unfold callBinaryToFeature. simpl.
    destruct (f _ info) as [r t]. reflexivity.
  - apply callAccessorMany_wrapped.
  - intros [[|]|] v; reflexivity.
  - intros accessor. split; reflexivity.
Qed.
End AccessorFacts.

Section RenderFacts.
Context {Coord Props Attr LayerClass ForwardMap : Type}.
Context `{!RenderExternals Coord Props Attr LayerClass ForwardMap}.
#[local] Abbreviation PointsLayerProps := (PointsLayerProps Coord Props Attr).
#[local] Abbreviation PointLayer :=
  (PointLayer Coord Props Attr LayerClass ForwardMap).

Lemma Set_add_elem (acc : list string) (x y : string) :
  y ∈ Set_add acc x <-> y ∈ acc \/ y = x.
Proof.
  unfold Set_add. case_bool_decide; set_solver.
Qed.

Lemma Set_add_NoDup (acc : list string) (x : string) :
  NoDup acc -> NoDup (Set_add acc x).
Proof.
  intros Hnd. unfold Set_add. case_bool_decide; [assumption|].
  apply NoDup_app. split; [assumption|]. split; [|apply NoDup_singleton].
  intros y Hy Hy'. apply list_elem_of_singleton in Hy'. subst. contradiction.
Qed.

Lemma Set_fold_spec (l acc : list string) :
  NoDup acc ->
  NoDup (fold_left Set_add l acc) /\
  forall y, y ∈ fold_left Set_add l acc <-> y ∈ acc \/ y ∈ l.
Proof.
  revert acc. induction l as [|x l IH]; intros acc Hnd; simpl.
  - split; [assumption|]. set_solver.
  - destruct (IH (Set_add acc x) (Set_add_NoDup _ _ Hnd)) as [Hn He].
    split; [assumption|]. intros y. rewrite He, Set_add_elem. set_solver.
Qed.

Lemma Set_new_NoDup (l : list string) : NoDup (Set_new l).
Proof. apply Set_fold_spec. constructor. Qed.

Lemma Set_new_elem (l : list string) (y : string) : y ∈ Set_new l <-> y ∈ l.
Proof.
  unfold Set_new. destruct (Set_fold_spec l [] (NoDup_nil_2)) as [_ He].
  rewrite He. set_solver.
Qed.

Lemma POINT_LAYER_known (type : string) :
  is_Some (POINT_LAYER type) <->
  type ∈ knownPointTypes \/ type ∈ Object_prototype_members.
Proof.
  unfold POINT_LAYER, knownPointTypes.
  destruct (String.eqb_spec type "circle") as [->|H1];
    [split; [intros _; left; set_solver | eauto]|].
  destruct (String.eqb_spec type "icon") as [->|H2];
    [split; [intros _; left; set_solver | eauto]|].
  destruct (String.eqb_spec type "text") as [->|H3];
    [split; [intros _; left; set_solver | eauto]|].
  case_bool_decide as Hm.
  - split; [intros _; right; assumption | eauto].
  - split; [intros [? [=]]|]. intros [Hk | Hk]; [|contradiction].
    exfalso. repeat (apply elem_of_cons in Hk as [-> | Hk]; [congruence|]).
    by apply elem_of_nil in Hk.
Qed.

Lemma POINT_LAYER_own (type : string) (m : PointLayerMapping LayerClass ForwardMap) :
  POINT_LAYER type = Some (OwnEntry m) -> type ∈ knownPointTypes.
Proof.
  unfold POINT_LAYER, knownPointTypes.
  destruct (String.eqb_spec type "circle") as [->|H1]; [intros _; set_solver|].
  destruct (String.eqb_spec type "icon") as [->|H2]; [intros _; set_solver|].
  destruct (String.eqb_spec type "text") as [->|H3]; [intros _; set_solver|].
  case_bool_decide; discriminate.
Qed.





Lemma renderPointType_layers binary hoi (points : option PointsLayerProps)
  type (ls : list PointLayer) :
  renderPointType binary hoi points type = Some ls ->
  ls = [] \/
  (is_Some (POINT_LAYER type) /\
   exists l, ls = [l] /\ layer_id l = String.append "points-" type).
Proof.
  unfold renderPointType.
  destruct (POINT_LAYER type) as [m|] eqn:E; [|intros [= <-]; left; reflexivity].
  destruct (shouldRenderSubLayer _ _); [|intros [= <-]; left; reflexivity].
  destruct (getSubLayerClass _ _); [|intros [= <-]; left; reflexivity].
  assert (Hgoal : forall (plp : option (option PointsLayerProps)) l0,
    (pointsLayerProps ← plp;
     Some [mkPointLayer _ _ _ _ _ (String.append "points-" type) l0
             (value_props m) hoi pointsLayerProps]) = Some ls ->
    ls = [] \/ (is_Some (Some m) /\
       exists l, ls = [l] /\ layer_id l = String.append "points-" type)).
  { intros [plp|] l0; simpl; [|discriminate]. intros [= <-]. right.
    split; [eauto|]. eexists. split; reflexivity. }
  apply Hgoal.
Qed.


Lemma renderPointTypes_sublist binary hoi (points : option PointsLayerProps)
  (types : list string) (layers : list PointLayer) :
  renderPointTypes binary hoi points types = Some layers ->
  exists sub, sub `sublist_of` types /\
    Forall (fun t => is_Some (POINT_LAYER t)) sub /\
    map layer_id layers = map (String.append "points-") sub.
Proof.
  revert layers. induction types as [|t types IH]; intros layers; simpl.
  - intros [= <-]. exists []. split; [constructor|]. split; [constructor|reflexivity].
  - destruct (renderPointType _ _ _ t) as [ls|] eqn:E1; simpl; [|discriminate].
    destruct (renderPointTypes _ _ _ types) as [more|] eqn:E2; simpl; [|discriminate].
    intros [= <-]. destruct (IH _ eq_refl) as (sub & Hsub & Hk & Hids).
    destruct (renderPointType_layers _ _ _ _ _ E1) as [->|(Hknown & l & -> & Hid)].
    + exists sub. split; [by apply sublist_cons|]. split; assumption.
    + exists (t :: sub). split; [by apply sublist_skip|].
      split; [constructor; assumption|]. simpl. rewrite Hid, Hids. reflexivity.
Qed.

(** No token other than 'text' makes the loop throw. *)
Lemma renderPointType_no_error binary hoi (points : option PointsLayerProps) type :
  type ≠ "text" -> is_Some (renderPointType binary hoi points type).
Proof.
  intros Hne. unfold renderPointType.
  destruct (POINT_LAYER type); [|eauto].
  destruct (shouldRenderSubLayer _ _); [|eauto].
  destruct (getSubLayerClass _ _); [|eauto].
  destruct (String.eqb_spec type "text") as [->|_]; [contradiction|].
  simpl. eauto.
Qed.

#[local] Instance append_inj (p : string) : Inj (=) (=) (String.append p).
Proof.
  intros a b. induction p as [|c p IH]; simpl; intros H; [assumption|].
  injection H as H. auto.
Qed.

End RenderFacts.

Section HeapFacts.
Context {Coord Props LP : Type} `{!Externals Coord Props LP}.
#[local] Abbreviation Feature := (Feature Coord Props).
#[local] Abbreviation GeomRecord := (GeomRecord Coord Props).
#[local] Abbreviation World := (World Coord Props).
#[local] Abbreviation State := (State LP).
#[local] Abbreviation DataValue := (DataValue Coord Props).
#[local] Abbreviation M := (@M Coord Props).

Lemma bind_run {A B} (m : M A) (k : A -> M B) (w : World) :
  (m ≫= k) w = k (m w).1 (m w).2.
Proof. unfold mbind, M_bind, bind. destruct (m w). reflexivity. Qed.

Lemma keys_of_elem {A} (o : Partial A) (k : BucketKey) :
  k ∈ keys_of o <-> is_Some (o k).
Proof.
  unfold keys_of. rewrite list_elem_of_filter. unfold all_keys.
  split; [intros [? _]; assumption|]. intros Hs. split; [assumption|].
  destruct k; set_solver.
Qed.

Lemma keys_of_NoDup {A} (o : Partial A) : NoDup (keys_of o).
Proof.
  unfold keys_of. apply NoDup_filter. unfold all_keys.
  repeat constructor; set_solver.
Qed.

Lemma readArray_insert (l l0 : loc) v h c :
  readArray l (mkWorld Coord Props (<[l0 := v]> h) c)
  = if decide (l = l0) then v else readArray l (mkWorld _ _ h c).
Proof.
  unfold readArray. simpl. case_decide as E.
  - subst. rewrite lookup_insert_eq. reflexivity.
  - rewrite lookup_insert_ne by congruence. reflexivity.
Qed.

Lemma allocArray_spec (v : list GeomRecord) (w : World) :
  let l := (allocArray v w).1 in
  let w' := (allocArray v w).2 in
  (l ∉ dom (heap w)) /\ heap w' = <[l := v]> (heap w) /\ calls w' = calls w.
Proof.
  simpl. split; [apply is_fresh|]. split; reflexivity.
Qed.

Lemma separateGeojsonFeatures_spec (fs : list Feature) (dr : option DataRange)
  (w : World) :
  let P := (separateGeojsonFeatures fs dr w).1 in
  let w' := (separateGeojsonFeatures fs dr w).2 in
  calls w' = calls w ++ [call_separateGeojsonFeatures dr] /\
  (forall k, P k ∉ dom (heap w)) /\
  (forall k, heap w' !! P k = Some (separated fs dr k)) /\
  (forall l, l ∈ dom (heap w) -> heap w' !! l = heap w !! l) /\
  (forall l, l ∈ dom (heap w) -> l ∈ dom (heap w')).
Proof.
  unfold separateGeojsonFeatures.
  rewrite !bind_run. simpl.
  set (h0 := heap w).
  set (l1 := fresh (dom h0)).
  set (h1 := <[l1 := separated fs dr pointBucket]> h0).
  set (l2 := fresh (dom h1)).
  set (h2 := <[l2 := separated fs dr lineBucket]> h1).
  set (l3 := fresh (dom h2)).
  assert (F1 : l1 ∉ dom h0) by apply is_fresh.
  assert (F2 : l2 ∉ dom h1) by apply is_fresh.
  assert (F3 : l3 ∉ dom h2) by apply is_fresh.
  unfold h2 in F3. unfold h1 in F2, F3.
  rewrite !dom_insert_L in F3. rewrite dom_insert_L in F2.
  assert (l2 ≠ l1) by set_solver.
  assert (l3 ≠ l1) by set_solver.
  assert (l3 ≠ l2) by set_solver.
  split; [reflexivity|]. split; [|split; [|split]].
  - intros []; set_solver.
  - intros []; unfold h2, h1; simplify_map_eq; reflexivity.
  - intros l Hl. assert (l ≠ l1 /\ l ≠ l2 /\ l ≠ l3) as (?&?&?).
    { repeat split; intros ->; set_solver. }
    unfold h2, h1. rewrite !lookup_insert_ne by congruence. reflexivity.
  - intros l Hl. unfold h2, h1. rewrite !dom_insert_L. set_solver.
Qed.

Lemma partial_push_lookup (fd : Partial (list DataRange)) (k k' : BucketKey)
  (e : DataRange) :
  partial_push fd k e k'
  = if decide (k' = k) then (fun d => d ++ [e]) <$> fd k else fd k'.
Proof.
  unfold partial_push. destruct (fd k) as [d|] eqn:E; simpl.
  - unfold partial_set. case_decide; reflexivity.
  - case_decide; [subst; assumption | reflexivity].
Qed.

Lemma replaceLoop_spec (r : DataRange) (nf : Partial loc) (P : BucketKey -> loc)
  (ks : list BucketKey) :
  NoDup ks ->
  (forall k1 k2 l, nf k1 = Some l -> nf k2 = Some l -> k1 = k2) ->
  (forall k l k', nf k = Some l -> l ≠ P k') ->
  forall fd (w : World),
    let fd' := (foldM (replaceBody r nf P) fd ks w).1 in
    let w' := (foldM (replaceBody r nf P) fd ks w).2 in
    (forall k l, k ∈ ks -> nf k = Some l ->
       heap w' !! l = Some (spliced (readArray l w) r (readArray (P k) w)) /\
       fd' k = (fun d => d ++ [report (readArray l w) r (readArray (P k) w)]) <$> fd k) /\
    (forall k, k ∉ ks \/ nf k = None -> fd' k = fd k) /\
    (forall l, (forall k, k ∈ ks -> nf k ≠ Some l) -> heap w' !! l = heap w !! l) /\
    (forall l, l ∈ dom (heap w) -> l ∈ dom (heap w')) /\
    calls w' = calls w ++ replaceCalls ks nf r.
Proof.
  intros Hnd Hinj Hsep. induction Hnd as [|k0 ks Hk0 Hnd IH]; intros fd w.
  { simpl. split; [intros k l Hk; set_solver|].
    split; [reflexivity|]. split; [reflexivity|]. split; [tauto|].
    unfold replaceCalls. simpl. rewrite app_nil_r. reflexivity. }
  cbn [foldM]. rewrite bind_run.
  set (fd1 := (replaceBody r nf P fd k0 w).1).
  set (w1 := (replaceBody r nf P fd k0 w).2).
  specialize (IH fd1 w1). cbv zeta in IH.
  destruct IH as (IHk & IHo & IHf & IHd & IHc).
  set (fd' := (foldM (replaceBody r nf P) fd1 ks w1).1) in *.
  set (w' := (foldM (replaceBody r nf P) fd1 ks w1).2) in *.
  cbv zeta.
  destruct (nf k0) as [l0|] eqn:E0.
  - (* the bucket of [k0] is spliced first *)
    assert (Hw1 : w1 = mkWorld _ _
              (<[l0 := spliced (readArray l0 w) r (readArray (P k0) w)]> (heap w))
              (calls w ++ [call_replaceInRange l0 r])).
    { unfold w1, replaceBody. rewrite E0, bind_run. reflexivity. }
    assert (Hfd1 : fd1 = partial_push fd k0
              (report (readArray l0 w) r (readArray (P k0) w))).
    { unfold fd1, replaceBody. rewrite E0, bind_run. reflexivity. }
    assert (Hother : forall k, k ∈ ks -> nf k ≠ Some l0).
    { intros k Hk Hnf. assert (k = k0) by eauto. subst. contradiction. }
    split; [|split; [|split; [|split]]].
    + intros k l Hk Hl. apply elem_of_cons in Hk as [->|Hk].
      * assert (l = l0) by congruence. subst l.
        rewrite (IHf l0 Hother), (IHo k0 (or_introl Hk0)).
        rewrite Hw1, Hfd1. simpl. rewrite lookup_insert_eq.
        rewrite partial_push_lookup. rewrite decide_True by reflexivity.
        split; reflexivity.
      * destruct (IHk k l Hk Hl) as [Hh Hf].
        assert (Hne : k ≠ k0) by (intros ->; contradiction).
        assert (Hl0 : l ≠ l0) by (intros ->; apply Hne; eauto).
        assert (HP : P k ≠ l0) by (intros HP; apply (Hsep k0 l0 k E0); congruence).
        rewrite Hh, Hf. rewrite Hw1, Hfd1.
        destruct w as [h c]. simpl.
        rewrite !readArray_insert. rewrite !decide_False by assumption.
        rewrite partial_push_lookup. rewrite decide_False by assumption.
        split; reflexivity.
    + intros k Hk.
      assert (Hk' : k ∉ ks \/ nf k = None).
      { destruct Hk as [Hk|Hk]; [left; set_solver | right; assumption]. }
      rewrite (IHo k Hk'), Hfd1, partial_push_lookup.
      case_decide as Ek; [|reflexivity]. subst k.
      destruct Hk as [Hk|Hk]; [set_solver | congruence].
    + intros l Hl. rewrite IHf by (intros k Hk; apply Hl; set_solver).
      rewrite Hw1. simpl. apply lookup_insert_ne.
      intros ->. apply (Hl k0); [set_solver | assumption].
    + intros l Hl. apply IHd. rewrite Hw1. simpl. rewrite dom_insert_L. set_solver.
    + rewrite IHc, Hw1. simpl. unfold replaceCalls. simpl. rewrite E0. simpl.
      rewrite <- app_assoc. reflexivity.
  - (* no bucket for [k0]: nothing happens *)
    assert (Hw1 : w1 = w) by (unfold w1, replaceBody; rewrite E0; reflexivity).
    assert (Hfd1 : fd1 = fd) by (unfold fd1, replaceBody; rewrite E0; reflexivity).
    rewrite Hw1, Hfd1 in *.
    split; [|split; [|split; [|split]]].
    + intros k l Hk Hl. apply elem_of_cons in Hk as [->|Hk]; [congruence|].
      apply IHk; assumption.
    + intros k Hk. apply IHo. destruct Hk as [Hk|Hk]; [left; set_solver | right; assumption].
    + intros l Hl. apply IHf. intros k Hk. apply Hl. set_solver.
    + assumption.
    + rewrite IHc. unfold replaceCalls. simpl. rewrite E0. reflexivity.
Qed.

Lemma readArray_lookup (l : loc) (w : World) (v : list GeomRecord) :
  heap w !! l = Some v -> readArray l w = v.
Proof. unfold readArray. intros ->. reflexivity. Qed.

Lemma readArray_eq (l : loc) (w w' : World) :
  heap w' !! l = heap w !! l -> readArray l w' = readArray l w.
Proof. unfold readArray. intros ->. reflexivity. Qed.

Lemma lookup_readArray (l : loc) (w : World) :
  l ∈ dom (heap w) -> heap w !! l = Some (readArray l w).
Proof.
  intros [v Hv]%elem_of_dom. rewrite Hv. f_equal. symmetry.
  apply readArray_lookup. assumption.
Qed.

Section Ranges.
Variable fs : list Feature.
Variable old nf : Partial loc.
Hypothesis nf_inj : forall k1 k2 l, nf k1 = Some l -> nf k2 = Some l -> k1 = k2.

Lemma applyRange_spec (r : DataRange) (fd : Partial (list DataRange)) (w : World) :
  (forall k l, nf k = Some l -> l ∈ dom (heap w)) ->
  let fd' := (applyRange fs old nf fd r w).1 in
  let w' := (applyRange fs old nf fd r w).2 in
  (forall k l, k ∈ keys_of old -> nf k = Some l ->
     heap w' !! l = Some (spliced (readArray l w) r (separated fs (Some r) k)) /\
     fd' k = (fun d => d ++ [report (readArray l w) r (separated fs (Some r) k)])
               <$> fd k) /\
  (forall k, k ∉ keys_of old \/ nf k = None -> fd' k = fd k) /\
  (forall l, l ∈ dom (heap w) -> (forall k, k ∈ keys_of old -> nf k ≠ Some l) ->
     heap w' !! l = heap w !! l) /\
  (forall l, l ∈ dom (heap w) -> l ∈ dom (heap w')) /\
  calls w' = calls w ++ call_separateGeojsonFeatures (Some r)
                          :: replaceCalls (keys_of old) nf r.
Proof.
  intros Hdom. unfold applyRange. rewrite bind_run.
  destruct (separateGeojsonFeatures_spec fs (Some r) w)
    as (Sc & Sfresh & Snew & Sold & Sdom).
  set (P := (separateGeojsonFeatures fs (Some r) w).1) in *.
  set (w1 := (separateGeojsonFeatures fs (Some r) w).2) in *.
  assert (Hsep : forall k l k', nf k = Some l -> l ≠ P k').
  { intros k l k' Hl ->. apply (Sfresh k'). eauto. }
  destruct (replaceLoop_spec r nf P (keys_of old) (keys_of_NoDup old) nf_inj Hsep fd w1)
    as (Lk & Lo & Lf & Ld & Lc).
  cbv zeta.
  cbv zeta.
  set (fd' := (foldM (replaceBody r nf P) fd (keys_of old) w1).1) in *.
  set (w' := (foldM (replaceBody r nf P) fd (keys_of old) w1).2) in *.
  assert (Hread : forall k l, nf k = Some l -> readArray l w1 = readArray l w).
  { intros k l Hl. apply readArray_eq, Sold. eauto. }
  assert (HreadP : forall k, readArray (P k) w1 = separated fs (Some r) k).
  { intros k. apply readArray_lookup, Snew. }
  split; [|split; [|split; [|split]]].
  - intros k l Hk Hl. destruct (Lk k l Hk Hl) as [Hh Hf].
    rewrite Hh, Hf, (Hread k l Hl), HreadP. split; reflexivity.
  - exact Lo.
  - intros l Hl Hn. rewrite (Lf l Hn). apply Sold. assumption.
  - intros l Hl. apply Ld, Sdom. assumption.
  - rewrite Lc, Sc, <- app_assoc. reflexivity.
Qed.

Lemma rangesLoop_spec (rs : list DataRange) :
  forall (fd : Partial (list DataRange)) (w : World),
  (forall k l, nf k = Some l -> l ∈ dom (heap w)) ->
  let fd' := (foldM (applyRange fs old nf) fd rs w).1 in
  let w' := (foldM (applyRange fs old nf) fd rs w).2 in
  (forall k l, k ∈ keys_of old -> nf k = Some l ->
     heap w' !! l = Some (splicedAll fs k (readArray l w) rs) /\
     fd' k = (fun d => d ++ reportsAll fs k (readArray l w) rs) <$> fd k) /\
  (forall k, k ∉ keys_of old \/ nf k = None -> fd' k = fd k) /\
  (forall l, l ∈ dom (heap w) -> (forall k, k ∈ keys_of old -> nf k ≠ Some l) ->
     heap w' !! l = heap w !! l) /\
  (forall l, l ∈ dom (heap w) -> l ∈ dom (heap w')) /\
  calls w' = calls w ++
    flat_map (fun r => call_separateGeojsonFeatures (Some r)
                         :: replaceCalls (keys_of old) nf r) rs.
Proof.
  induction rs as [|r rs IH]; intros fd w Hdom.
  { simpl. split; [|split; [|split; [|split]]]; try tauto.
    - intros k l Hk Hl. split; [apply lookup_readArray; eauto|].
      destruct (fd k); simpl; [rewrite app_nil_r|]; reflexivity.
    - rewrite app_nil_r. reflexivity. }
  cbn [foldM]. rewrite bind_run.
  destruct (applyRange_spec r fd w Hdom) as (Ak & Ao & Af & Ad & Ac).
  set (fd1 := (applyRange fs old nf fd r w).1) in *.
  set (w1 := (applyRange fs old nf fd r w).2) in *.
  assert (Hdom1 : forall k l, nf k = Some l -> l ∈ dom (heap w1)) by eauto.
  destruct (IH fd1 w1 Hdom1) as (Ik & Io & If & Id & Ic).
  cbv zeta.
  set (fd' := (foldM (applyRange fs old nf) fd1 rs w1).1) in *.
  set (w' := (foldM (applyRange fs old nf) fd1 rs w1).2) in *.
  split; [|split; [|split; [|split]]].
  - intros k l Hk Hl. destruct (Ik k l Hk Hl) as [Hh Hf].
    destruct (Ak k l Hk Hl) as [Hh1 Hf1].
    rewrite Hh, Hf, Hf1, (readArray_lookup _ _ _ Hh1). simpl.
    split; [reflexivity|].
    destruct (fd k); simpl; [rewrite <- app_assoc|]; reflexivity.
  - intros k Hk. rewrite (Io k Hk). apply Ao. assumption.
  - intros l Hl Hn. rewrite (If l (Ad l Hl) Hn). apply Af; assumption.
  - eauto.
  - rewrite Ic, Ac. simpl. rewrite <- app_assoc. reflexivity.
Qed.
End Ranges.

Lemma copyLoop_spec (old : Partial loc) (ks : list BucketKey) :
  NoDup ks ->
  forall nf fd (w : World),
  (forall k l, old k = Some l -> l ∈ dom (heap w)) ->
  let nf' := (foldM (copyBody old) (nf, fd) ks w).1.1 in
  let fd' := (foldM (copyBody old) (nf, fd) ks w).1.2 in
  let w' := (foldM (copyBody old) (nf, fd) ks w).2 in
  (forall k l, k ∈ ks -> old k = Some l ->
     exists l', nf' k = Some l' /\ (l' ∉ dom (heap w)) /\
                heap w' !! l' = Some (readArray l w) /\ fd' k = Some []) /\
  (forall k, k ∉ ks \/ old k = None -> nf' k = nf k /\ fd' k = fd k) /\
  (forall l, l ∈ dom (heap w) -> heap w' !! l = heap w !! l) /\
  calls w' = calls w /\
  (forall k1 k2 l, k1 ∈ ks -> k2 ∈ ks -> is_Some (old k1) -> is_Some (old k2) ->
     nf' k1 = Some l -> nf' k2 = Some l -> k1 = k2).
Proof.
  induction 1 as [|k0 ks Hk0 Hnd IH]; intros nf fd w Hwf.
  { simpl. split; [intros k l Hk; set_solver|].
    split; [tauto|]. split; [tauto|]. split; [reflexivity|].
    intros k1 k2 l Hk1. set_solver. }
  cbn [foldM]. rewrite bind_run.
  destruct (old k0) as [l0|] eqn:E0.
  - set (c := fresh (dom (heap w))).
    set (w1 := mkWorld Coord Props (<[c := readArray l0 w]> (heap w)) (calls w)).
    assert (Hstep : copyBody old (nf, fd) k0 w
                    = ((partial_set nf k0 c, partial_set fd k0 []), w1)).
    { unfold copyBody. rewrite E0, bind_run. reflexivity. }
    rewrite Hstep. cbn [fst snd].
    assert (Hc : c ∉ dom (heap w)) by apply is_fresh.
    assert (Hwf1 : forall k l, old k = Some l -> l ∈ dom (heap w1)).
    { intros k l Hl. unfold w1. simpl. rewrite dom_insert_L.
      apply elem_of_union_r. eauto. }
    destruct (IH (partial_set nf k0 c) (partial_set fd k0 []) w1 Hwf1)
      as (Ik & Io & If & Ic & Iinj).
    cbv zeta.
    set (R := foldM (copyBody old) (partial_set nf k0 c, partial_set fd k0 []) ks w1) in *.
    assert (Hframe : forall l, l ∈ dom (heap w) -> heap R.2 !! l = heap w !! l).
    { intros l Hl. rewrite If.
      - unfold w1. simpl. apply lookup_insert_ne. intros <-. contradiction.
      - unfold w1. simpl. rewrite dom_insert_L. set_solver. }
    assert (Hk0c : R.1.1 k0 = Some c).
    { destruct (Io k0 (or_introl Hk0)) as [-> _].
      unfold partial_set. rewrite decide_True by reflexivity. reflexivity. }
    assert (Hnew : forall k l, k ∈ ks -> is_Some (old k) -> R.1.1 k = Some l -> l ≠ c).
    { intros k l Hk [lo Hlo] Hl ->.
      destruct (Ik k lo Hk Hlo) as (l' & Hn & Hfresh & _).
      assert (l' = c) by congruence. subst l'.
      apply Hfresh. unfold w1. simpl. rewrite dom_insert_L. set_solver. }
    split; [|split; [|split; [|split]]].
    + intros k l Hk Hl. apply elem_of_cons in Hk as [->|Hk].
      * assert (l = l0) by congruence. subst l. exists c.
        destruct (Io k0 (or_introl Hk0)) as [-> ->].
        unfold partial_set. rewrite !decide_True by reflexivity.
        split; [reflexivity|]. split; [assumption|]. split; [|reflexivity].
        rewrite If.
        -- unfold w1. simpl. apply lookup_insert_eq.
        -- unfold w1. simpl. rewrite dom_insert_L. set_solver.
      * destruct (Ik k l Hk Hl) as (l' & Hn & Hfresh & Hh & Hf).
        exists l'. split; [assumption|]. split; [|split; [|assumption]].
        -- intros Hin. apply Hfresh. unfold w1. simpl. rewrite dom_insert_L. set_solver.
        -- rewrite Hh. f_equal. apply readArray_eq. unfold w1. simpl.
           apply lookup_insert_ne. intros <-. apply Hc. eauto.
    + intros k Hk.
      assert (Hk' : k ∉ ks \/ old k = None).
      { destruct Hk as [Hk|Hk]; [left; set_solver | right; assumption]. }
      destruct (Io k Hk') as [-> ->]. unfold partial_set.
      case_decide as Ek; [|split; reflexivity]. subst k.
      destruct Hk as [Hk|Hk]; [set_solver | congruence].
    + exact Hframe.
    + rewrite Ic. reflexivity.
    + intros k1 k2 l Hk1 Hk2 Ho1 Ho2 Hl1 Hl2.
      apply elem_of_cons in Hk1 as [->|Hk1]; apply elem_of_cons in Hk2 as [->|Hk2].
      * reflexivity.
      * exfalso. apply (Hnew k2 l Hk2 Ho2 Hl2). congruence.
      * exfalso. apply (Hnew k1 l Hk1 Ho1 Hl1). congruence.
      * eapply Iinj; eassumption.
  - assert (Hstep : copyBody old (nf, fd) k0 w = ((nf, fd), w)).
    { unfold copyBody. rewrite E0. reflexivity. }
    rewrite Hstep. cbn [fst snd].
    destruct (IH nf fd w Hwf) as (Ik & Io & If & Ic & Iinj). cbv zeta.
    split; [|split; [|split; [|split]]]; try assumption.
    + intros k l Hk Hl. apply elem_of_cons in Hk as [->|Hk]; [congruence|].
      apply Ik; assumption.
    + intros k Hk. apply Io. destruct Hk as [Hk|Hk]; [left; set_solver | right; assumption].
    + intros k1 k2 l Hk1 Hk2 [o1 Ho1] [o2 Ho2] Hl1 Hl2.
      apply elem_of_cons in Hk1 as [->|Hk1]; [congruence|].
      apply elem_of_cons in Hk2 as [->|Hk2]; [congruence|].
      eapply Iinj; eauto.
Qed.

Lemma copyBuckets_spec (old : Partial loc) (w : World) :
  (forall k l, old k = Some l -> l ∈ dom (heap w)) ->
  let nf' := (copyBuckets old w).1.1 in
  let fd' := (copyBuckets old w).1.2 in
  let w' := (copyBuckets old w).2 in
  (forall k l, old k = Some l ->
     exists l', nf' k = Some l' /\ (l' ∉ dom (heap w)) /\
                heap w' !! l' = Some (readArray l w) /\ fd' k = Some []) /\
  (forall k, old k = None -> nf' k = None /\ fd' k = None) /\
  (forall l, l ∈ dom (heap w) -> heap w' !! l = heap w !! l) /\
  calls w' = calls w /\
  (forall k1 k2 l, nf' k1 = Some l -> nf' k2 = Some l -> k1 = k2) /\
  (forall k l, nf' k = Some l -> l ∈ dom (heap w')).
Proof.
  intros Hwf.
  destruct (copyLoop_spec old (keys_of old) (keys_of_NoDup old)
              partial_empty partial_empty w Hwf) as (Ck & Co & Cf & Cc & Cinj).
  unfold copyBuckets. cbv zeta.
  set (R := foldM (copyBody old) (partial_empty, partial_empty) (keys_of old) w) in *.
  assert (Hnone : forall k, old k = None -> R.1.1 k = None /\ R.1.2 k = None).
  { intros k Hk. destruct (Co k (or_intror Hk)) as [-> ->]. split; reflexivity. }
  assert (Hsome : forall k l, R.1.1 k = Some l -> is_Some (old k)).
  { intros k l Hl. destruct (old k) eqn:E; [eauto|].
    destruct (Hnone k E) as [Hn _]. congruence. }
  split; [|split; [|split; [|split; [|split]]]]; try assumption.
  - intros k l Hl. apply Ck; [|assumption]. apply keys_of_elem. eauto.
  - intros k1 k2 l H1 H2.
    pose proof (Hsome k1 l H1) as S1. pose proof (Hsome k2 l H2) as S2.
    apply (Cinj k1 k2 l); try assumption; apply keys_of_elem; assumption.
  - intros k l Hl. destruct (Hsome k l Hl) as [lo Hlo].
    destruct (Ck k lo) as (l' & Hn & _ & Hh & _); [apply keys_of_elem; eauto|assumption|].
    assert (l' = l) by congruence. subst. apply elem_of_dom. eauto.
Qed.

(** The range branch of [_updateStateJSON], step by step. *)
Lemma _updateStateJSON_ranges_run (data : DataValue) (rs : list DataRange)
  (st : State) (w : World) :
  _updateStateJSON data (DCRanges rs) st w =
  let fs := getGeojsonFeatures data in
  let w0 := mkWorld Coord Props (heap w) (calls w ++ [call_getGeojsonFeatures]) in
  let C := copyBuckets (features st) w0 in
  let L := foldM (applyRange fs (features st) C.1.1) C.1.2 rs C.2 in
  let w2 := mkWorld Coord Props (heap L.2)
              (calls L.2 ++ [call_createLayerPropsFromFeatures]) in
  (mkState LP (Some (createLayerPropsFromFeatures (heap w2) C.1.1 L.1))
           C.1.1 L.1 (binary st), w2).
Proof.
  unfold _updateStateJSON, buildFeatures. cbv zeta.
  unfold mbind, M_bind, bind, mret, M_ret, ret, logCall, getHeap.
  set (w0 := mkWorld Coord Props (heap w) (calls w ++ [call_getGeojsonFeatures])).
  destruct (copyBuckets (features st) w0) as [[nf fd] w1]. cbn [fst snd].
  destruct (foldM _ fd rs w1) as [fd2 w2]. reflexivity.
Qed.

Lemma _updateStateJSON_ranges_spec (data : DataValue) (rs : list DataRange)
  (st : State) (w : World) :
  wf_state st w ->
  let fs := getGeojsonFeatures data in
  let st' := (_updateStateJSON data (DCRanges rs) st w).1 in
  let w' := (_updateStateJSON data (DCRanges rs) st w).2 in
  (forall k l, features st k = Some l ->
     exists l', features st' k = Some l' /\ (l' ∉ dom (heap w)) /\
       heap w' !! l' = Some (splicedAll fs k (readArray l w) rs) /\
       featuresDiff st' k = Some (reportsAll fs k (readArray l w) rs)) /\
  (forall k, features st k = None ->
     features st' k = None /\ featuresDiff st' k = None) /\
  (forall l, l ∈ dom (heap w) -> heap w' !! l = heap w !! l) /\
  calls w' = calls w ++ call_getGeojsonFeatures
    :: flat_map (fun r => call_separateGeojsonFeatures (Some r)
                   :: replaceCalls (keys_of (features st)) (features st') r) rs
    ++ [call_createLayerPropsFromFeatures].
Proof.
  intros Hwf. rewrite _updateStateJSON_ranges_run. cbv zeta. cbn [fst snd].
  set (fs := getGeojsonFeatures data).
  set (w0 := mkWorld Coord Props (heap w) (calls w ++ [call_getGeojsonFeatures])).
  destruct (copyBuckets_spec (features st) w0 Hwf)
    as (Ck & Cn & Cf & Cc & Cinj & Cdom).
  set (C := copyBuckets (features st) w0) in *.
  destruct (rangesLoop_spec fs (features st) C.1.1 Cinj rs C.1.2 C.2 Cdom)
    as (Lk & Lo & Lf & Ld & Lc).
  set (L := foldM (applyRange fs (features st) C.1.1) C.1.2 rs C.2) in *.
  cbn [features featuresDiff heap calls].
  split; [|split; [|split]].
  - intros k l Hl. destruct (Ck k l Hl) as (l' & Hn & Hfresh & Hh & Hf).
    exists l'. split; [assumption|]. split; [assumption|].
    assert (Hk : k ∈ keys_of (features st)) by (apply keys_of_elem; eauto).
    destruct (Lk k l' Hk Hn) as [Hh' Hf'].
    rewrite Hh', Hf', Hf, (readArray_lookup _ _ _ Hh). simpl.
    split; reflexivity.
  - intros k Hk. destruct (Cn k Hk) as [Hn Hf]. split; [assumption|].
    rewrite Lo by (right; assumption). assumption.
  - intros l Hl. rewrite Lf.
    + apply Cf. assumption.
    + apply elem_of_dom. rewrite Cf by assumption. apply elem_of_dom. assumption.
    + intros k Hk Hn. apply keys_of_elem in Hk as [lo Hlo].
      destruct (Ck k lo Hlo) as (l' & Hn' & Hfresh & _).
      assert (l' = l) by congruence. subst. contradiction.
  - rewrite Lc, Cc. simpl. rewrite <- !app_assoc. reflexivity.
Qed.
End HeapFacts.

Section SpliceFacts.
Context {Coord Props : Type}.
#[local] Abbreviation Feature := (Feature Coord Props).
#[local] Abbreviation GeomRecord := (GeomRecord Coord Props).

Lemma normalize_index (i : nat) (f : Feature) (d : GeomRecord) :
  d ∈ normalize i f -> source_index d = i.
Proof.
  unfold normalize. intros Hd. apply list_elem_of_lookup in Hd as [j Hj].
  rewrite list_lookup_imap in Hj.
  destruct (_ !! j); simpl in Hj; [|discriminate].
  injection Hj as <-. reflexivity.
Qed.

Lemma separateFrom_app (i : nat) (a b : list Feature) (r : DataRange) :
  separateFrom i (a ++ b) r
  = separateFrom i a r ++ separateFrom (i + length a) b r.
Proof.
  revert i. induction a as [|f a IH]; intros i; simpl.
  - rewrite Nat.add_0_r. reflexivity.
  - rewrite IH, <- app_assoc. do 3 f_equal. lia.
Qed.

Lemma separateFrom_index (i : nat) (fs : list Feature) (r : DataRange)
  (d : GeomRecord) :
  d ∈ separateFrom i fs r ->
  i <= source_index d < i + length fs /\
  startRow r <= source_index d < endRow r.
Proof.
  revert i. induction fs as [|f fs IH]; intros i; simpl.
  - intros Hd. set_solver.
  - intros Hd. apply elem_of_app in Hd as [Hd|Hd].
    + destruct (Nat.leb_spec (startRow r) i); simpl in Hd; [|set_solver].
      destruct (Nat.ltb_spec i (endRow r)); simpl in Hd; [|set_solver].
      apply normalize_index in Hd. lia.
    + apply IH in Hd. lia.
Qed.

Lemma separateFrom_outside (i : nat) (fs : list Feature) (r : DataRange) :
  endRow r <= i \/ i + length fs <= startRow r ->
  separateFrom i fs r = [].
Proof.
  revert i. induction fs as [|f fs IH]; intros i Hout; simpl; [reflexivity|].
  rewrite IH by (simpl in Hout; lia).
  destruct (Nat.leb_spec (startRow r) i); simpl; [|reflexivity].
  destruct (Nat.ltb_spec i (endRow r)); simpl; [|reflexivity].
  simpl in Hout. lia.
Qed.

Lemma separateFrom_covered (i : nat) (fs : list Feature) (r r' : DataRange) :
  startRow r <= i -> i + length fs <= endRow r ->
  startRow r' <= i -> i + length fs <= endRow r' ->
  separateFrom i fs r = separateFrom i fs r'.
Proof.
  revert i. induction fs as [|f fs IH]; intros i H1 H2 H3 H4; simpl; [reflexivity|].
  simpl in H2, H4. rewrite (IH (S i)) by lia.
  destruct (Nat.leb_spec (startRow r) i); [|lia].
  destruct (Nat.ltb_spec i (endRow r)); [|lia].
  destruct (Nat.leb_spec (startRow r') i); [|lia].
  destruct (Nat.ltb_spec i (endRow r')); [|lia].
  reflexivity.
Qed.

Lemma countBefore_app (row : nat) (x y : list GeomRecord) :
  Forall (fun d => source_index d < row) x ->
  countBefore row (x ++ y) = length x + countBefore row y.
Proof.
  induction 1 as [|d x Hd Hx IH]; simpl; [reflexivity|].
  destruct (Nat.ltb_spec (source_index d) row); [|lia].
  rewrite IH. reflexivity.
Qed.

Lemma countBefore_none (row : nat) (y : list GeomRecord) :
  Forall (fun d => row <= source_index d) y -> countBefore row y = 0.
Proof.
  destruct 1 as [|d y Hd Hy]; simpl; [reflexivity|].
  destruct (Nat.ltb_spec (source_index d) row); [lia | reflexivity].
Qed.

(** Splicing the records of the range into a bucket laid out as
    [before ++ inside ++ after]. *)
Lemma spliced_sorted (r : DataRange) (before inside after replace : list GeomRecord) :
  startRow r <= endRow r ->
  Forall (fun d => source_index d < startRow r) before ->
  Forall (fun d => startRow r <= source_index d < endRow r) inside ->
  Forall (fun d => endRow r <= source_index d) after ->
  spliced (before ++ inside ++ after) r replace = before ++ replace ++ after /\
  report (before ++ inside ++ after) r replace
    = mkRange (length before) (length before + length replace).
Proof.
  intros Hr Hb Hi Ha.
  assert (Hs : sliceStart (before ++ inside ++ after) r = length before).
  { unfold sliceStart. rewrite countBefore_app by assumption.
    rewrite countBefore_none; [lia|].
    apply Forall_app. split.
    - eapply Forall_impl; [exact Hi|]. simpl. lia.
    - eapply Forall_impl; [exact Ha|]. simpl. lia. }
  assert (He : sliceEnd (before ++ inside ++ after) r = length before + length inside).
  { unfold sliceEnd. rewrite Hs, drop_app_length.
    rewrite countBefore_app by (eapply Forall_impl; [exact Hi|]; simpl; lia).
    rewrite countBefore_none by assumption. lia. }
  unfold spliced, report. rewrite Hs, He. split; [|reflexivity].
  rewrite take_app_length. f_equal. f_equal.
  rewrite app_assoc. apply drop_app_length'. rewrite length_app. reflexivity.
Qed.

Lemma separated_split (pre mid suf : list Feature) (k : BucketKey) :
  let full := mkRange 0 (length (pre ++ mid ++ suf)) in
  separated (pre ++ mid ++ suf) None k
  = filter (fun d => shapeKind (shape d) = k) (separateFrom 0 pre full)
    ++ filter (fun d => shapeKind (shape d) = k)
         (separateFrom (length pre) mid full)
    ++ filter (fun d => shapeKind (shape d) = k)
         (separateFrom (length pre + length mid) suf full).
Proof.
  unfold separated. simpl.
  rewrite !separateFrom_app, !filter_app. simpl. reflexivity.
Qed.

(** Replacing the features of [pre ++ mid ++ suf] at the positions of [mid]
    by as many features [mid'] and splicing the range into the old bucket
    gives the bucket of the new collection. *)
Lemma spliced_full_rebuild (pre mid mid' suf : list Feature) (k : BucketKey) :
  length mid' = length mid ->
  let r := mkRange (length pre) (length pre + length mid) in
  spliced (separated (pre ++ mid ++ suf) None k) r
          (separated (pre ++ mid' ++ suf) (Some r) k)
  = separated (pre ++ mid' ++ suf) None k.
Proof.
  intros Hlen r.
  rewrite !separated_split. cbv zeta.
  assert (Hn : length (pre ++ mid' ++ suf) = length (pre ++ mid ++ suf)).
  { rewrite !length_app. lia. }
  rewrite Hn, Hlen.
  set (full := mkRange 0 (length (pre ++ mid ++ suf))).
  set (keep := fun d : GeomRecord => shapeKind (shape d) = k).
  assert (Hrep : separated (pre ++ mid' ++ suf) (Some r) k
                 = filter keep (separateFrom (length pre) mid' full)).
  { unfold separated. simpl. rewrite !separateFrom_app. simpl.
    rewrite (separateFrom_outside 0 pre r) by (right; simpl; lia).
    rewrite (separateFrom_outside _ suf r) by (left; simpl; lia).
    rewrite app_nil_r. simpl. f_equal.
    apply separateFrom_covered; unfold full; simpl;
      rewrite ?length_app; lia. }
  rewrite Hrep.
  apply spliced_sorted; simpl; [lia| | |].
  - apply Forall_forall. intros d Hd. apply list_elem_of_filter in Hd as [_ Hd].
    apply separateFrom_index in Hd. lia.
  - apply Forall_forall. intros d Hd. apply list_elem_of_filter in Hd as [_ Hd].
    apply separateFrom_index in Hd. lia.
  - apply Forall_forall. intros d Hd. apply list_elem_of_filter in Hd as [_ Hd].
    apply separateFrom_index in Hd. lia.
Qed.
End SpliceFacts.

Section PathFacts.
Context {Coord Props LP : Type} `{!Externals Coord Props LP}.
#[local] Abbreviation Feature := (Feature Coord Props).
#[local] Abbreviation GeomRecord := (GeomRecord Coord Props).
#[local] Abbreviation World := (World Coord Props).
#[local] Abbreviation State := (State LP).
#[local] Abbreviation DataValue := (DataValue Coord Props).
#[local] Abbreviation M := (@M Coord Props).

Lemma appends_ret {A} (ok : Call -> Prop) (a : A) : appends ok (mret a : M A).
Proof. intros w. exists []. rewrite app_nil_r. split; [reflexivity|constructor]. Qed.

Lemma appends_bind {A B} (ok : Call -> Prop) (m : M A) (k : A -> M B) :
  appends ok m -> (forall a, appends ok (k a)) -> appends ok (m ≫= k).
Proof.
  intros Hm Hk w. rewrite bind_run.
  destruct (Hm w) as (e1 & E1 & F1).
  destruct (Hk (m w).1 (m w).2) as (e2 & E2 & F2).
  exists (e1 ++ e2). rewrite E2, E1, app_assoc. split; [reflexivity|].
  apply Forall_app. split; assumption.
Qed.

Lemma appends_foldM {A S} (ok : Call -> Prop) (f : S -> A -> M S) (l : list A) :
  (forall s a, appends ok (f s a)) -> forall s, appends ok (foldM f s l).
Proof.
  intros Hf. induction l as [|x l IH]; intros s; simpl.
  - apply appends_ret.
  - apply appends_bind; [apply Hf | assumption].
Qed.

Lemma appends_logCall (ok : Call -> Prop) (c : Call) :
  ok c -> appends ok (logCall c : M unit).
Proof. intros Hc w. exists [c]. split; [reflexivity|]. repeat constructor. assumption. Qed.

Lemma appends_silent {A} (ok : Call -> Prop) (m : M A) :
  (forall w, calls (m w).2 = calls w) -> appends ok m.
Proof.
  intros Hm w. exists []. rewrite app_nil_r. split; [apply Hm|constructor].
Qed.

Lemma appends_separate (fs : list Feature) (dr : option DataRange) :
  appends objectPathCall (separateGeojsonFeatures fs dr).
Proof.
  intros w. destruct (separateGeojsonFeatures_spec fs dr w) as (Hc & _).
  eexists. split; [exact Hc|]. repeat constructor. discriminate.
Qed.

Lemma appends_replaceInRange (data : loc) (r : DataRange) (replace : loc) :
  appends objectPathCall (replaceInRange data r replace : M DataRange).
Proof.
  intros w. eexists. split; [reflexivity|]. repeat constructor. discriminate.
Qed.

Lemma appends_buildFeatures (fs : list Feature) (dc : DataChanged) (old : Partial loc) :
  appends objectPathCall (buildFeatures fs dc old).
Proof.
  assert (Hfull : appends objectPathCall
            (sep ← separateGeojsonFeatures fs None;
             (mret (fun k => Some (sep k), partial_empty)
                : M (Partial loc * Partial (list DataRange))))).
  { apply appends_bind; [apply appends_separate | intros; apply appends_ret]. }
  destruct dc as [| |rs]; [exact Hfull | exact Hfull |].
  unfold buildFeatures. apply appends_bind.
  - unfold copyBuckets. apply appends_foldM. intros [nf fd] k. unfold copyBody.
    destruct (old k); [|apply appends_ret].
    apply appends_bind; [|intros; apply appends_ret].
    apply appends_silent. reflexivity.
  - intros [nf fd]. apply appends_bind; [|intros; apply appends_ret].
    apply appends_foldM. intros fd' r. unfold applyRange.
    apply appends_bind; [apply appends_separate|]. intros P.
    apply appends_foldM. intros fd'' k. unfold replaceBody.
    destruct (nf k); [|apply appends_ret].
    apply appends_bind; [apply appends_replaceInRange | intros; apply appends_ret].
Qed.

(** The object path starts with [getGeojsonFeatures], ends with
    [createLayerPropsFromFeatures] and makes no call of the binary path. *)
Lemma _updateStateJSON_calls (data : DataValue) (dc : DataChanged)
  (st : State) (w : World) :
  exists ext,
    calls (_updateStateJSON data dc st w).2
    = calls w ++ call_getGeojsonFeatures :: ext
        ++ [call_createLayerPropsFromFeatures]
    /\ Forall objectPathCall ext.
Proof.
  unfold _updateStateJSON. rewrite bind_run. cbn [logCall fst snd].
  set (w0 := mkWorld Coord Props (heap w) (calls w ++ [call_getGeojsonFeatures])).
  rewrite bind_run.
  destruct (appends_buildFeatures (getGeojsonFeatures data) dc (features st) w0)
    as (ext & Hext & Hok).
  destruct ((buildFeatures (getGeojsonFeatures data) dc (features st) w0).1)
    as [nf fd].
  exists ext. split; [|assumption].
  unfold mbind, M_bind, bind, mret, M_ret, ret, logCall, getHeap. simpl.
  rewrite Hext. unfold w0. simpl. rewrite <- !app_assoc. reflexivity.
Qed.

Lemma isBinary_keys (data : DataValue) :
  isBinary data = true <->
  exists o, data = DObject o /\ is_Some (o !! "points") /\
            is_Some (o !! "lines") /\ is_Some (o !! "polygons").
Proof.
  unfold isBinary. destruct data as [|fs|o]; simpl.
  - split; [discriminate | intros (o & [=] & _)].
  - split; [discriminate | intros (o & [=] & _)].
  - rewrite !andb_true_iff, !bool_decide_eq_true. split.
    + intros [[Hp Hg] Hl]. exists o. tauto.
    + intros (o' & [= <-] & Hp & Hl & Hg). tauto.
Qed.
End PathFacts.

Section PathSelection.
Context {Coord Props LP : Type} `{!Externals Coord Props LP}.
Context {BinaryData In Out : Type}.
#[local] Abbreviation World := (World Coord Props).
#[local] Abbreviation State := (State LP).
#[local] Abbreviation DataValue := (DataValue Coord Props).

(** C2: on a data change, [updateState] takes the binary path exactly when
    [data] is an object with the three keys 'points', 'lines' and
    'polygons'.  On that path the only helper called is
    [createLayerPropsFromBinary] (buckets and arrays stay as they were) and
    a function accessor gets the binary wrapper whatever the parent class
    would do; otherwise the object path runs ([getGeojsonFeatures] first,
    [createLayerPropsFromFeatures] last, no binary call) and accessors go to
    the parent class. *)
Theorem updateState_path_selection (data : DataValue) (dc : DataChanged)
  (st : State) (w : World) :
  dataChanged_truthy dc = true ->
  let st' := (updateState data dc st w).1 in
  let w' := (updateState data dc st w).2 in
  (isBinary data = true <->
     exists o, data = DObject o /\ is_Some (o !! "points") /\
               is_Some (o !! "lines") /\ is_Some (o !! "polygons")) /\
  binary st' = Some (isBinary data) /\
  (isBinary data = true ->
     calls w' = calls w ++ [call_createLayerPropsFromBinary] /\
     heap w' = heap w /\ features st' = features st /\
     featuresDiff st' = featuresDiff st /\
     forall (E1 E2 : AccessorExternals BinaryData In Out) f,
       (forall d i, @binaryToFeatureForAccesor _ _ _ E1 d i
                    = @binaryToFeatureForAccesor _ _ _ E2 d i) ->
       forall object info,
         callAccessor (@getSubLayerAccessor _ _ _ E1 (binary st') (AccFun f)) object info
         = callAccessor (@getSubLayerAccessor _ _ _ E2 (binary st') (AccFun f)) object info) /\
  (isBinary data = false ->
     (exists ext,
        calls w' = calls w ++ call_getGeojsonFeatures :: ext
                     ++ [call_createLayerPropsFromFeatures] /\
        Forall objectPathCall ext) /\
     forall (E : AccessorExternals BinaryData In Out) accessor,
       getSubLayerAccessor (binary st') accessor = super_getSubLayerAccessor accessor).
Proof.
  intros Ht. unfold updateState. rewrite Ht. cbn [negb].
  split; [apply isBinary_keys|].
  destruct (isBinary data) eqn:Hb; cbv zeta.
  - split; [reflexivity|]. split; [|discriminate]. intros _.
    split; [reflexivity|]. split; [reflexivity|]. split; [reflexivity|].
    split; [reflexivity|].
    intros E1 E2 f Heq object info. simpl. unfold callBinaryToFeature.
    rewrite Heq. reflexivity.
  - split; [|split; [discriminate|]].
    + unfold _updateStateJSON, buildFeatures.
      unfold mbind, M_bind, bind, mret, M_ret, ret, logCall, getHeap.
      destruct dc as [| |rs].
      * destruct (separateGeojsonFeatures _ _ _). reflexivity.
      * destruct (separateGeojsonFeatures _ _ _). reflexivity.
      * destruct (copyBuckets _ _) as [[nf fd] w1].
        destruct (foldM _ _ _ _). reflexivity.
    + intros _. split; [apply _updateStateJSON_calls|].
      assert (Hbin : binary (_updateStateJSON data dc
                 (mkState LP (layerProps st) (features st) (featuresDiff st) (Some false)) w).1
               = Some false).
      { unfold _updateStateJSON, buildFeatures.
        unfold mbind, M_bind, bind, mret, M_ret, ret, logCall, getHeap.
        destruct dc as [| |rs].
        * destruct (separateGeojsonFeatures _ _ _). reflexivity.
        * destruct (separateGeojsonFeatures _ _ _). reflexivity.
        * destruct (copyBuckets _ _) as [[nf fd] w1].
          destruct (foldM _ _ _ _). reflexivity. }
      intros E accessor. rewrite Hbin. reflexivity.
Qed.
End PathSelection.

Section RangeFoldFacts.
Context {Coord Props : Type}.
#[local] Abbreviation Feature := (Feature Coord Props).
#[local] Abbreviation GeomRecord := (GeomRecord Coord Props).

Lemma reportsAll_length (fs : list Feature) (k : BucketKey) (rs : list DataRange) :
  forall b : list GeomRecord, length (reportsAll fs k b rs) = length rs.
Proof.
  induction rs as [|r rs IH]; intros b; simpl; [reflexivity|].
  rewrite IH. reflexivity.
Qed.

(** The [i]-th range meets the bucket as left by the ranges before it. *)
Lemma splicedAll_step (fs : list Feature) (k : BucketKey) (rs : list DataRange) :
  forall (b : list GeomRecord) i r,
    rs !! i = Some r ->
    splicedAll fs k b (take (S i) rs)
    = spliced (splicedAll fs k b (take i rs)) r (separated fs (Some r) k) /\
    reportsAll fs k b rs !! i
    = Some (report (splicedAll fs k b (take i rs)) r (separated fs (Some r) k)).
Proof.
  induction rs as [|r0 rs IH]; intros b i r Hi; [discriminate|].
  destruct i as [|i]; simpl in Hi.
  - injection Hi as ->. simpl. split; reflexivity.
  - simpl. apply IH. assumption.
Qed.
End RangeFoldFacts.

Section UpdateTheorems.
Context {Coord Props LP : Type} `{!Externals Coord Props LP}.
#[local] Abbreviation Feature := (Feature Coord Props).
#[local] Abbreviation GeomRecord := (GeomRecord Coord Props).
#[local] Abbreviation World := (World Coord Props).
#[local] Abbreviation State := (State LP).
#[local] Abbreviation DataValue := (DataValue Coord Props).

(** A full rebuild: three new arrays holding the separated collection. *)
Lemma _updateStateJSON_full_spec (data : DataValue) (s : string)
  (st : State) (w : World) :
  let fs := getGeojsonFeatures data in
  let st' := (_updateStateJSON data (DCReason s) st w).1 in
  let w' := (_updateStateJSON data (DCReason s) st w).2 in
  (forall k, exists l, features st' k = Some l /\ (l ∉ dom (heap w)) /\
                       heap w' !! l = Some (separated fs None k)) /\
  (forall l, l ∈ dom (heap w) -> heap w' !! l = heap w !! l).
Proof.
  cbv zeta. unfold _updateStateJSON, buildFeatures.
  rewrite !bind_run. cbn [logCall fst snd].
  set (w0 := mkWorld Coord Props (heap w) (calls w ++ [call_getGeojsonFeatures])).
  destruct (separateGeojsonFeatures_spec (getGeojsonFeatures data) None w0)
    as (Sc & Sfresh & Snew & Sold & Sdom).
  set (R := separateGeojsonFeatures (getGeojsonFeatures data) None w0) in *.
  unfold mbind, M_bind, bind, mret, M_ret, ret, logCall, getHeap.
  destruct R as [P w1]. simpl in *. split.
  - intros k. exists (P k). split; [reflexivity|]. split; [apply Sfresh | apply Snew].
  - exact Sold.
Qed.

Lemma updateState_object_path (data : DataValue) (dc : DataChanged)
  (st : State) (w : World) :
  dataChanged_truthy dc = true -> isBinary data = false ->
  updateState data dc st w
  = _updateStateJSON data dc
      (mkState LP (layerProps st) (features st) (featuresDiff st) (Some false)) w.
Proof.
  intros Ht Hb. unfold updateState. rewrite Ht, Hb. reflexivity.
Qed.

(** C3: with a list of change ranges, [_updateStateJSON] calls
    [separateGeojsonFeatures] and then [replaceInRange] (once per bucket of
    the previous state) for each range in list order; the splice of range
    [i] is applied to the bucket as left by ranges [0..i-1]; and the diff
    list of every such bucket gets exactly one entry per range, namely
    [{startRow: s, endRow: s + n}] for the slice start [s] and the number
    [n] of replacement records, which is the zero-length entry
    [{startRow: s, endRow: s}] when the range adds no record.  A bucket
    kind absent from the previous state gets neither bucket nor diff list. *)
Theorem _updateStateJSON_ranges_in_order (data : DataValue) (rs : list DataRange)
  (st : State) (w : World) :
  wf_state st w ->
  let fs := getGeojsonFeatures data in
  let st' := (_updateStateJSON data (DCRanges rs) st w).1 in
  let w' := (_updateStateJSON data (DCRanges rs) st w).2 in
  calls w' = calls w ++ call_getGeojsonFeatures
    :: flat_map (fun r => call_separateGeojsonFeatures (Some r)
                   :: replaceCalls (keys_of (features st)) (features st') r) rs
    ++ [call_createLayerPropsFromFeatures] /\
  (forall k, features st k = None ->
     features st' k = None /\ featuresDiff st' k = None) /\
  forall k l, features st k = Some l ->
    let b := readArray l w in
    exists l' diff,
      features st' k = Some l' /\ featuresDiff st' k = Some diff /\
      length diff = length rs /\
      heap w' !! l' = Some (splicedAll fs k b rs) /\
      forall i r, rs !! i = Some r ->
        let bi := splicedAll fs k b (take i rs) in
        let replace := separated fs (Some r) k in
        splicedAll fs k b (take (S i) rs) = spliced bi r replace /\
        diff !! i = Some (mkRange (sliceStart bi r)
                                  (sliceStart bi r + length replace)) /\
        (replace = [] ->
         diff !! i = Some (mkRange (sliceStart bi r) (sliceStart bi r))).
Proof.
  intros Hwf. cbv zeta.
  destruct (_updateStateJSON_ranges_spec data rs st w Hwf) as (Hk & Ha & _ & Hc).
  split; [exact Hc|]. split; [exact Ha|].
  intros k l Hl. destruct (Hk k l Hl) as (l' & Hn & _ & Hh & Hd).
  exists l', (reportsAll (getGeojsonFeatures data) k (readArray l w) rs).
  split; [assumption|]. split; [assumption|].
  split; [apply reportsAll_length|]. split; [assumption|].
  intros i r Hi.
  destruct (splicedAll_step (getGeojsonFeatures data) k rs (readArray l w) i r Hi)
    as [Hs Hr].
  split; [assumption|]. split; [exact Hr|].
  intros Hnil. rewrite Hr. unfold report. rewrite Hnil. simpl.
  rewrite Nat.add_0_r. reflexivity.
Qed.

(** C4 (as amended): on a range-based change every bucket of the previous
    state is first copied into a new array; the splices are applied to the
    copy and the copy is what [state.features] holds afterwards.  The new
    array is different from the previous one, and the previous array (like
    every array that existed before) keeps its contents. *)
Theorem _updateStateJSON_ranges_copy (data : DataValue) (rs : list DataRange)
  (st : State) (w : World) :
  wf_state st w ->
  let fs := getGeojsonFeatures data in
  let st' := (_updateStateJSON data (DCRanges rs) st w).1 in
  let w' := (_updateStateJSON data (DCRanges rs) st w).2 in
  (forall k l, features st k = Some l ->
     exists l', features st' k = Some l' /\ l' ≠ l /\ (l' ∉ dom (heap w)) /\
       heap w' !! l' = Some (splicedAll fs k (readArray l w) rs) /\
       heap w' !! l = heap w !! l) /\
  (forall l, l ∈ dom (heap w) -> heap w' !! l = heap w !! l).
Proof.
  intros Hwf. cbv zeta.
  destruct (_updateStateJSON_ranges_spec data rs st w Hwf) as (Hk & _ & Hf & _).
  split; [|exact Hf].
  intros k l Hl. destruct (Hk k l Hl) as (l' & Hn & Hfresh & Hh & _).
  exists l'. split; [assumption|].
  split; [intros ->; apply Hfresh; eauto|].
  split; [assumption|]. split; [assumption|]. apply Hf. eauto.
Qed.

(** C1 (as amended): let the buckets be those of a full rebuild of
    [pre ++ mid ++ suf]; when the features at the positions of [mid] are
    replaced by the same number of features [mid'] and the update is run
    with that one range, each bucket holds what a full rebuild of
    [pre ++ mid' ++ suf] puts in it. *)
Theorem updateState_range_equals_rebuild (data0 data1 : DataValue)
  (pre mid mid' suf : list Feature) (s0 s1 : string)
  (st0 stR : State) (w0 wR : World) :
  getGeojsonFeatures data0 = pre ++ mid ++ suf ->
  getGeojsonFeatures data1 = pre ++ mid' ++ suf ->
  length mid' = length mid ->
  isBinary data0 = false -> isBinary data1 = false ->
  s0 ≠ EmptyString -> s1 ≠ EmptyString ->
  let r := mkRange (length pre) (length pre + length mid) in
  let st1 := (updateState data0 (DCReason s0) st0 w0).1 in
  let w1 := (updateState data0 (DCReason s0) st0 w0).2 in
  let st2 := (updateState data1 (DCRanges [r]) st1 w1).1 in
  let w2 := (updateState data1 (DCRanges [r]) st1 w1).2 in
  let st3 := (updateState data1 (DCReason s1) stR wR).1 in
  let w3 := (updateState data1 (DCReason s1) stR wR).2 in
  forall k, exists l2 l3,
    features st2 k = Some l2 /\ features st3 k = Some l3 /\
    heap w2 !! l2 = heap w3 !! l3 /\
    heap w3 !! l3 = Some (separated (pre ++ mid' ++ suf) None k).
Proof.
  intros H0 H1 Hlen Hb0 Hb1 Hs0 Hs1. cbv zeta.
  assert (T0 : dataChanged_truthy (DCReason s0) = true).
  { simpl. destruct (String.eqb_spec s0 EmptyString); [contradiction | reflexivity]. }
  assert (T1 : dataChanged_truthy (DCReason s1) = true).
  { simpl. destruct (String.eqb_spec s1 EmptyString); [contradiction | reflexivity]. }
  rewrite (updateState_object_path data0 _ st0 w0 T0 Hb0).
  rewrite (updateState_object_path data1 _ stR wR T1 Hb1).
  set (sa := mkState LP (layerProps st0) (features st0) (featuresDiff st0) (Some false)).
  set (sb := mkState LP (layerProps stR) (features stR) (featuresDiff stR) (Some false)).
  destruct (_updateStateJSON_full_spec data0 s0 sa w0) as (F0 & _).
  destruct (_updateStateJSON_full_spec data1 s1 sb wR) as (F3 & _).
  set (st1 := (_updateStateJSON data0 (DCReason s0) sa w0).1) in *.
  set (w1 := (_updateStateJSON data0 (DCReason s0) sa w0).2) in *.
  rewrite (updateState_object_path data1 (DCRanges [mkRange (length pre) (length pre + length mid)]) st1 w1 eq_refl Hb1).
  set (sc := mkState LP (layerProps st1) (features st1) (featuresDiff st1) (Some false)).
  assert (Hwf : wf_state sc w1).
  { intros k l Hl. destruct (F0 k) as (l0 & Hn & _ & Hh).
    change (features st1 k = Some l) in Hl.
    assert (l0 = l) by congruence. subst. apply elem_of_dom. eauto. }
  destruct (_updateStateJSON_ranges_spec data1
              [mkRange (length pre) (length pre + length mid)] sc w1 Hwf)
    as (Hk & _).
  intros k. destruct (F0 k) as (l1 & Hn1 & _ & Hh1).
  destruct (Hk k l1 Hn1) as (l2 & Hn2 & _ & Hh2 & _).
  destruct (F3 k) as (l3 & Hn3 & _ & Hh3).
  exists l2, l3. split; [assumption|]. split; [assumption|].
  rewrite H1 in Hh2, Hh3. rewrite H0 in Hh1.
  rewrite Hh3. split; [|reflexivity].
  rewrite Hh2. f_equal. simpl.
  rewrite (readArray_lookup _ _ _ Hh1).
  apply spliced_full_rebuild. assumption.
Qed.
End UpdateTheorems.

(** * Instances of the theorems and counterexamples *)

Lemma updateState_no_change_witness :
  dataChanged_truthy DCFalse = false /\
  updateState (DArray samplePrior) DCFalse sampleRebuilt.1 sampleRebuilt.2
  = (sampleRebuilt.1, sampleRebuilt.2).
Proof.
  split; [reflexivity|].
  apply (updateState_no_change (DArray samplePrior) DCFalse). reflexivity.
Defined.

Lemma updateState_path_selection_witness :
  dataChanged_truthy (DCReason "data changed") = true /\
  binary (updateState sampleBinary (DCReason "data changed")
                      initializeState sampleWorld).1 = Some true.
Proof.
  split; [reflexivity|].
  exact (proj1 (proj2 (updateState_path_selection
           (BinaryData := unit) (In := Z) (Out := Z)
           sampleBinary (DCReason "data changed") initializeState sampleWorld
           eq_refl))).
Defined.

Lemma sampleRebuilt_wf : wf_state sampleRebuilt.1 sampleRebuilt.2.
Proof.
  intros k l H. destruct k; vm_compute in H; injection H as <-;
    apply elem_of_dom; vm_compute; eauto.
Defined.

Lemma _updateStateJSON_ranges_in_order_witness :
  wf_state sampleRebuilt.1 sampleRebuilt.2 /\
  calls (_updateStateJSON (DArray samplePost) (DCRanges [mkRange 0 1; mkRange 1 2])
           sampleRebuilt.1 sampleRebuilt.2).2
  = calls sampleRebuilt.2 ++
    [call_getGeojsonFeatures;
     call_separateGeojsonFeatures (Some (mkRange 0 1));
     call_replaceInRange 3 (mkRange 0 1);
     call_replaceInRange 4 (mkRange 0 1);
     call_replaceInRange 5 (mkRange 0 1);
     call_separateGeojsonFeatures (Some (mkRange 1 2));
     call_replaceInRange 3 (mkRange 1 2);
     call_replaceInRange 4 (mkRange 1 2);
     call_replaceInRange 5 (mkRange 1 2);
     call_createLayerPropsFromFeatures].
Proof.
  split; [exact sampleRebuilt_wf|].
  exact (proj1 (_updateStateJSON_ranges_in_order (DArray samplePost)
                  [mkRange 0 1; mkRange 1 2] sampleRebuilt.1 sampleRebuilt.2
                  sampleRebuilt_wf)).
Defined.

Lemma _updateStateJSON_ranges_copy_witness :
  wf_state sampleRebuilt.1 sampleRebuilt.2 /\
  forall l, l ∈ dom (heap sampleRebuilt.2) ->
    heap (_updateStateJSON (DArray samplePost) (DCRanges [mkRange 0 1])
            sampleRebuilt.1 sampleRebuilt.2).2 !! l
    = heap sampleRebuilt.2 !! l.
Proof.
  split; [exact sampleRebuilt_wf|].
  exact (proj2 (_updateStateJSON_ranges_copy (DArray samplePost) [mkRange 0 1]
                  sampleRebuilt.1 sampleRebuilt.2 sampleRebuilt_wf)).
Defined.

(** On the sample, the points bucket is array 0 before the range update and
    array 3 after it, while array 0 still holds the two old records: the
    bucket stored after the update is not the array stored before. *)
Lemma range_update_stores_new_array :
  features sampleRebuilt.1 pointBucket = Some 0 /\
  features sampleRanged.1 pointBucket = Some 3 /\
  features sampleRanged.1 pointBucket ≠ features sampleRebuilt.1 pointBucket /\
  heap sampleRanged.2 !! 0 = heap sampleRebuilt.2 !! 0 /\
  length <$> heap sampleRanged.2 !! 0 = Some 2 /\
  length <$> heap sampleRanged.2 !! 3 = Some 1.
Proof.
  split; [vm_compute; reflexivity|].
  split; [vm_compute; reflexivity|].
  split; [vm_compute; discriminate|].
  split; [vm_compute; reflexivity|].
  split; vm_compute; reflexivity.
Qed.

Lemma updateState_range_equals_rebuild_witness :
  length [samplePoint 5 5] = length [sampleMultiPoint] /\
  exists l2 l3,
    features sampleRanged.1 pointBucket = Some l2 /\
    features (updateState (DArray samplePost) (DCReason "data changed")
                initializeState sampleWorld).1 pointBucket = Some l3 /\
    heap sampleRanged.2 !! l2
    = heap (updateState (DArray samplePost) (DCReason "data changed")
              initializeState sampleWorld).2 !! l3 /\
    heap (updateState (DArray samplePost) (DCReason "data changed")
              initializeState sampleWorld).2 !! l3
    = Some (separated ([] ++ [samplePoint 5 5] ++ [samplePolygon]) None pointBucket).
Proof.
  split; [reflexivity|].
  apply (updateState_range_equals_rebuild
           (DArray samplePrior) (DArray samplePost)
           [] [sampleMultiPoint] [samplePoint 5 5] [samplePolygon]
           "data changed" "data changed"
           initializeState initializeState sampleWorld sampleWorld);
    [reflexivity | reflexivity | reflexivity | reflexivity | reflexivity
    | discriminate | discriminate].
Defined.

(** Replacing the first of two points by two points, with the changed range
    still [0,1): the range update leaves two point records (the new first
    feature and the old second one, still numbered 1), a full rebuild of the
    new collection gives three. *)
Lemma range_update_differs_from_rebuild :
  map source_index <$> bucketContents growRanged.1 growRanged.2 pointBucket
    = Some [0; 1] /\
  map source_index <$> bucketContents growFull.1 growFull.2 pointBucket
    = Some [0; 1; 2] /\
  bucketContents growRanged.1 growRanged.2 pointBucket
    ≠ bucketContents growFull.1 growFull.2 pointBucket.
Proof.
  split; [vm_compute; reflexivity|].
  split; [vm_compute; reflexivity|].
  vm_compute. discriminate.
Qed.


(** The line sub-layer itself has the id [`${id}-linestrings`], which does
    not start with [`${id}-linestrings-`]. *)
Example getPickingInfo_linestrings_layer :
  featureType <$> getPickingInfo "L" (Some false) (DArray samplePrior)
                    (mkPickingInfo (Some 1%Z) "L-linestrings" None)
  = Some None.
Proof. reflexivity. Qed.

Lemma getPickingInfo_index_witness :
  (points_globalFeatureIds sampleBinary = Some [7; 7; 9]%Z /\ (0 <= 2)%Z /\
   index <$> getPickingInfo "L" (Some true) sampleBinary
               (mkPickingInfo (Some 2%Z) "L-points-text" None)
   = Some (Some 9%Z)) /\
  index <$> getPickingInfo "L" (Some true) sampleBinary
              (mkPickingInfo (Some 2%Z) "L-points-circle" None)
  = Some (Some 2%Z).
Proof.
  split.
  - split; [reflexivity|]. split; [lia|].
    apply (proj1 (getPickingInfo_index "L" sampleBinary
                    (mkPickingInfo (Some 2%Z) "L-points-text" None))
             [7; 7; 9]%Z 2%Z); [reflexivity | reflexivity | lia | reflexivity].
  - apply (proj2 (getPickingInfo_index "L" sampleBinary
                    (mkPickingInfo (Some 2%Z) "L-points-circle" None))
             (Some true)).
    right. right. reflexivity.
Defined.

Lemma getPickingInfo_stale_index_witness :
  (Z.of_nat (length [7; 7; 9]%Z) <= 5)%Z /\
  index <$> getPickingInfo "L" (Some true) sampleBinary
              (mkPickingInfo (Some 5%Z) "L-points-text" None)
  = Some None.
Proof.
  split; [simpl; lia|].
  apply (proj1 (getPickingInfo_stale_index "L" sampleBinary
                  (mkPickingInfo (Some 5%Z) "L-points-text" None))
           [7; 7; 9]%Z 5%Z); [reflexivity | reflexivity | simpl; lia | reflexivity].
Defined.

(** A pick from the circle sub-layer with index 5, on a points bucket of
    three primitives: the index comes back as the number 5. *)
Lemma stale_index_passes_through :
  points_globalFeatureIds sampleBinary = Some [7; 7; 9]%Z /\
  getPickingInfo "L" (Some true) sampleBinary
    (mkPickingInfo (Some 5%Z) "L-points-circle" None)
  = Some (mkPickingInfo (Some 5%Z) "L-points-circle" (Some "points")) /\
  ~ stale_index_rejected.
Proof.
  split; [reflexivity|]. split; [reflexivity|].
  intros H.
  destruct (H "L" (Some true) sampleBinary
              (mkPickingInfo (Some 5%Z) "L-points-circle" None)
              [7; 7; 9]%Z 5%Z eq_refl eq_refl ltac:(simpl; lia))
    as (info' & Hi & Hs).
  vm_compute in Hi. injection Hi as <-. simpl in Hs.
  destruct Hs as [Hs | (z' & Hz & Hlt)]; [discriminate|].
  injection Hz as <-. lia.
Qed.




(** * Further properties of the layer *)

Section MoreUpdateFacts.
Context {Coord Props LP : Type} `{!Externals Coord Props LP}.
#[local] Abbreviation Feature := (Feature Coord Props).
#[local] Abbreviation GeomRecord := (GeomRecord Coord Props).
#[local] Abbreviation World := (World Coord Props).
#[local] Abbreviation State := (State LP).
#[local] Abbreviation DataValue := (DataValue Coord Props).

Lemma keys_of_none {A} (o : Partial A) :
  (forall k, o k = None) -> keys_of o = [].
Proof.
  intros Hn. apply elem_of_nil_inv. intros k Hk.
  apply keys_of_elem in Hk as [a Ha]. rewrite Hn in Ha. discriminate.
Qed.

Lemma separate_calls_only (nf : Partial loc) (rs : list DataRange) :
  flat_map (fun r => call_separateGeojsonFeatures (Some r) :: replaceCalls [] nf r) rs
  = map (fun r => call_separateGeojsonFeatures (Some r)) rs.
Proof.
  induction rs as [|r rs IH]; simpl; [reflexivity|].
  rewrite <- IH. reflexivity.
Qed.

(** X1: a range-based change on a layer that has no buckets yet (as after
    [initializeState]) builds none: [features] and [featuresDiff] stay
    without keys, [separateGeojsonFeatures] is still called once per range
    but [replaceInRange] never, and no existing array is touched. *)
Theorem updateState_ranges_without_buckets (data : DataValue)
  (rs : list DataRange) (st : State) (w : World) :
  (forall k, features st k = None) ->
  isBinary data = false ->
  let st' := (updateState data (DCRanges rs) st w).1 in
  let w' := (updateState data (DCRanges rs) st w).2 in
  (forall k, features st' k = None /\ featuresDiff st' k = None) /\
  calls w' = calls w ++ call_getGeojsonFeatures
    :: map (fun r => call_separateGeojsonFeatures (Some r)) rs
    ++ [call_createLayerPropsFromFeatures] /\
  (forall l, l ∈ dom (heap w) -> heap w' !! l = heap w !! l).
Proof.
  intros Hn Hb. cbv zeta.
  rewrite (updateState_object_path data (DCRanges rs) st w eq_refl Hb).
  set (sa := mkState LP (layerProps st) (features st) (featuresDiff st) (Some false)).
  assert (Hwf : wf_state sa w).
  { intros k l Hl. simpl in Hl. rewrite Hn in Hl. discriminate. }
  destruct (_updateStateJSON_ranges_spec data rs sa w Hwf) as (_ & Ha & Hf & Hc).
  split; [intros k; apply Ha, Hn|]. split; [|exact Hf].
  rewrite Hc. change (features sa) with (features st).
  rewrite (keys_of_none _ Hn).
  rewrite separate_calls_only. reflexivity.
Qed.

(** X2: an empty list of change ranges still copies every bucket: each
    bucket of the previous state is stored as a new array with the same
    records, its diff list is the empty list, and neither
    [separateGeojsonFeatures] nor [replaceInRange] is called. *)
Theorem updateState_empty_ranges (data : DataValue) (st : State) (w : World) :
  wf_state st w ->
  isBinary data = false ->
  let st' := (updateState data (DCRanges []) st w).1 in
  let w' := (updateState data (DCRanges []) st w).2 in
  calls w' = calls w ++ [call_getGeojsonFeatures; call_createLayerPropsFromFeatures] /\
  (forall k l, features st k = Some l ->
     exists l', features st' k = Some l' /\ l' ≠ l /\
       heap w' !! l' = Some (readArray l w) /\
       heap w' !! l = heap w !! l /\
       featuresDiff st' k = Some []) /\
  (forall k, features st k = None ->
     features st' k = None /\ featuresDiff st' k = None).
Proof.
  intros Hwf Hb. cbv zeta.
  rewrite (updateState_object_path data (DCRanges []) st w eq_refl Hb).
  set (sa := mkState LP (layerProps st) (features st) (featuresDiff st) (Some false)).
  assert (Hwf' : wf_state sa w) by exact Hwf.
  destruct (_updateStateJSON_ranges_spec data [] sa w Hwf') as (Hk & Ha & Hf & Hc).
  split; [exact Hc|]. split; [|exact Ha].
  intros k l Hl. destruct (Hk k l Hl) as (l' & Hn & Hfresh & Hh & Hd).
  exists l'. split; [assumption|].
  split; [intros ->; apply Hfresh; eauto|].
  split; [exact Hh|]. split; [apply Hf; eauto | exact Hd].
Qed.

(** X3: after a range-based change the buckets of different kinds are
    different array objects, also when the previous state named one array
    under two kinds. *)
Theorem _updateStateJSON_ranges_no_alias (data : DataValue) (rs : list DataRange)
  (st : State) (w : World) :
  wf_state st w ->
  let st' := (_updateStateJSON data (DCRanges rs) st w).1 in
  forall k1 k2 l,
    features st' k1 = Some l -> features st' k2 = Some l -> k1 = k2.
Proof.
  intros Hwf. cbv zeta. rewrite _updateStateJSON_ranges_run. cbv zeta. cbn [fst features].
  set (w0 := mkWorld Coord Props (heap w) (calls w ++ [call_getGeojsonFeatures])).
  destruct (copyBuckets_spec (features st) w0 Hwf) as (_ & _ & _ & _ & Cinj & _).
  exact Cinj.
Qed.

Lemma updateState_step (data : DataValue) (dc : DataChanged)
  (st : State) (w : World) :
  wf_state st w ->
  let st' := (updateState data dc st w).1 in
  let w' := (updateState data dc st w).2 in
  wf_state st' w' /\
  (forall l, l ∈ dom (heap w) -> heap w' !! l = heap w !! l).
Proof.
  intros Hwf. cbv zeta. unfold updateState.
  destruct (dataChanged_truthy dc) eqn:Ht; cbn [negb]; [|split; [exact Hwf|reflexivity]].
  destruct (isBinary data) eqn:Hb.
  { split; [exact Hwf|reflexivity]. }
  set (sa := mkState LP (layerProps st) (features st) (featuresDiff st) (Some false)).
  assert (Hwf' : wf_state sa w) by exact Hwf.
  destruct dc as [|s|rs]; [discriminate| |].
  - destruct (_updateStateJSON_full_spec data s sa w) as (Hk & Hf).
    split; [|exact Hf]. intros k l Hl. destruct (Hk k) as (l0 & Hn & _ & Hh).
    assert (l0 = l) by congruence. subst. apply elem_of_dom. eauto.
  - destruct (_updateStateJSON_ranges_spec data rs sa w Hwf') as (Hk & Ha & Hf & _).
    split; [|exact Hf]. intros k l Hl.
    destruct (features sa k) as [lo|] eqn:Ho.
    + destruct (Hk k lo Ho) as (l' & Hn & _ & Hh & _).
      assert (l' = l) by congruence. subst. apply elem_of_dom. eauto.
    + destruct (Ha k Ho) as [Hn _]. congruence.
Qed.

(** X4: over any sequence of [updateState] calls (full rebuilds, range
    updates, binary data, no change, in any order) no array that existed
    before the sequence is ever modified, and the buckets named by the state
    are always allocated arrays. *)
Theorem updateMany_keeps_arrays (steps : list (DataValue * DataChanged)) :
  forall (st : State) (w : World),
  wf_state st w ->
  let st' := (updateMany steps st w).1 in
  let w' := (updateMany steps st w).2 in
  wf_state st' w' /\
  (forall l, l ∈ dom (heap w) -> heap w' !! l = heap w !! l).
Proof.
  induction steps as [|[data dc] steps IH]; intros st w Hwf; cbv zeta.
  { split; [exact Hwf|reflexivity]. }
  unfold updateMany. cbn [foldM]. rewrite bind_run. cbn [fst snd].
  destruct (updateState_step data dc st w Hwf) as (Hwf1 & Hf1).
  set (st1 := (updateState data dc st w).1) in *.
  set (w1 := (updateState data dc st w).2) in *.
  destruct (IH st1 w1 Hwf1) as (Hwf2 & Hf2).
  split; [exact Hwf2|].
  intros l Hl. unfold updateMany in Hf2. rewrite Hf2; [apply Hf1; assumption|].
  apply elem_of_dom. rewrite Hf1 by assumption. apply elem_of_dom. assumption.
Qed.

(** X5: a full rebuild on the object path (a truthy [dataChanged] that is
    not an array) forgets every diff list of the previous state, stores
    three new arrays as buckets and calls [separateGeojsonFeatures] once,
    without a range, and [replaceInRange] never. *)
Theorem updateState_full_rebuild_resets_diff (data : DataValue) (s : string)
  (st : State) (w : World) :
  s ≠ EmptyString -> isBinary data = false ->
  let st' := (updateState data (DCReason s) st w).1 in
  let w' := (updateState data (DCReason s) st w).2 in
  (forall k, featuresDiff st' k = None) /\
  (forall k, exists l, features st' k = Some l /\ (l ∉ dom (heap w))) /\
  (forall k1 k2, features st' k1 = features st' k2 -> k1 = k2) /\
  binary st' = Some false /\
  calls w' = calls w ++ [call_getGeojsonFeatures;
                         call_separateGeojsonFeatures None;
                         call_createLayerPropsFromFeatures].
Proof.
  intros Hs Hb. cbv zeta.
  assert (Ht : dataChanged_truthy (DCReason s) = true).
  { simpl. destruct (String.eqb_spec s EmptyString); [contradiction | reflexivity]. }
  rewrite (updateState_object_path data (DCReason s) st w Ht Hb).
  set (sa := mkState LP (layerProps st) (features st) (featuresDiff st) (Some false)).
  unfold _updateStateJSON, buildFeatures.
  set (w0 := mkWorld Coord Props (heap w) (calls w ++ [call_getGeojsonFeatures])).
  destruct (separateGeojsonFeatures_spec (getGeojsonFeatures data) None w0)
    as (Sc & Sfresh & Snew & Sold & Sdom).
  unfold mbind, M_bind, bind, mret, M_ret, ret, logCall, getHeap.
  fold w0.
  destruct (separateGeojsonFeatures (getGeojsonFeatures data) None w0) as [P w1] eqn:E.
  cbn [fst snd features featuresDiff binary calls] in *.
  split; [reflexivity|]. split; [intros k; exists (P k); split; [reflexivity|apply Sfresh]|].
  split; [|split; [reflexivity|]].
  - intros k1 k2 [= HP].
    unfold separateGeojsonFeatures in E.
    unfold mbind, M_bind, bind, mret, M_ret, ret, logCall, allocArray in E.
    cbn in E. injection E as <- <-.
    set (h0 := heap w) in *.
    set (l1 := fresh (dom h0)) in *.
    set (h1 := <[l1 := separated (getGeojsonFeatures data) None pointBucket]> h0) in *.
    set (l2 := fresh (dom h1)) in *.
    set (h2 := <[l2 := separated (getGeojsonFeatures data) None lineBucket]> h1) in *.
    set (l3 := fresh (dom h2)) in *.
    assert (F2 : l2 ∉ dom h1) by apply is_fresh.
    assert (F3 : l3 ∉ dom h2) by apply is_fresh.
    unfold h2 in F3. unfold h1 in F2, F3.
    rewrite !dom_insert_L in F3. rewrite dom_insert_L in F2.
    destruct k1, k2; try reflexivity; exfalso; set_solver.
  - rewrite Sc. unfold w0. simpl. rewrite <- !app_assoc. reflexivity.
Qed.
End MoreUpdateFacts.

Section MorePickingFacts.
Context {Coord Props : Type}.
#[local] Abbreviation DataValue := (DataValue Coord Props).

Lemma prefix_empty (s : string) : String.prefix EmptyString s = true.
Proof. destruct s; reflexivity. Qed.

Lemma prefix_String_same (c : ascii) (a b : string) :
  String.prefix (String c a) (String c b) = String.prefix a b.
Proof.
  cbn [String.prefix]. destruct (Ascii.ascii_dec c c); [reflexivity | contradiction].
Qed.

Lemma prefix_append_same (a x y : string) :
  String.prefix (String.append a x) (String.append a y) = String.prefix x y.
Proof.
  induction a as [|c a IH]; [reflexivity|].
  change (String.prefix (String c (String.append a x)) (String c (String.append a y))
          = String.prefix x y).
  rewrite prefix_String_same. exact IH.
Qed.

Lemma prefix_append_self (a r : string) :
  String.prefix a (String.append a r) = true.
Proof.
  induction a as [|c a IH]; [apply prefix_empty|].
  change (String.prefix (String c a) (String c (String.append a r)) = true).
  rewrite prefix_String_same. exact IH.
Qed.

Lemma getPickingInfo_points_iff (id : string) (binary : option bool)
  (data : DataValue) (info info' : PickingInfo) :
  getPickingInfo id binary data info = Some info' ->
  featureType info' = Some "points" <->
  startsWith (sourceLayer_id info) (pointLayerIdPrefix id) = true.
Proof.
  intros H. apply getPickingInfo_fields in H as [_ ->].
  change (pointLayerIdPrefix id) with (featureTypePrefix id "points").
  destruct (List.find _ FEATURE_TYPES) as [ft|] eqn:Hfind.
  - split.
    + intros [= ->]. apply List.find_some in Hfind as [_ Hm]. exact Hm.
    + intros Hm. f_equal. apply List.find_some in Hfind as [Hin Hm'].
      apply (featureTypePrefix_unique id (sourceLayer_id info)); try assumption.
      * apply list_elem_of_In. assumption.
      * unfold FEATURE_TYPES. set_solver.
  - split; [discriminate|]. intros Hm.
    pose proof (List.find_none _ _ Hfind "points") as Hn.
    simpl in Hn. rewrite Hn in Hm; [discriminate | left; reflexivity].
Qed.

(** X6: [getPickingInfo] throws exactly when the lookup applies (index
    non-negative, source id starting with [`${id}-points-text`], binary
    state) and [data.points.globalFeatureIds] cannot be read; in every other
    case it returns a picking info. *)
Theorem getPickingInfo_throws_iff (id : string) (binary : option bool)
  (data : DataValue) (info : PickingInfo) :
  getPickingInfo id binary data info = None <->
  index_nonneg (index info) = true /\
  startsWith (sourceLayer_id info) (pointsTextPrefix id) = true /\
  binary = Some true /\
  points_globalFeatureIds data = None.
Proof.
  unfold getPickingInfo.
  destruct (index_nonneg (index info)); simpl;
    [|split; [discriminate | intros (? & _); discriminate]].
  destruct (startsWith (sourceLayer_id info) (pointsTextPrefix id)); simpl;
    [|split; [discriminate | intros (_ & ? & _); discriminate]].
  destruct binary as [[|]|]; simpl;
    try (split; [discriminate | intros (_ & _ & ? & _); discriminate]).
  destruct (points_globalFeatureIds data); simpl.
  - split; [discriminate | intros (_ & _ & _ & ?); discriminate].
  - split; [intros _; repeat split | reflexivity].
Qed.

(** X7: a pick whose source id starts with [`${id}-points-text`], the
    picks whose index is looked up on the binary path, always gets the
    feature type 'points'. *)
Theorem getPickingInfo_text_is_points (id : string) (binary : option bool)
  (data : DataValue) (info info' : PickingInfo) :
  startsWith (sourceLayer_id info) (pointsTextPrefix id) = true ->
  getPickingInfo id binary data info = Some info' ->
  featureType info' = Some "points".
Proof.
  intros Ht H. apply (getPickingInfo_points_iff _ _ _ _ _ H).
  unfold startsWith, pointsTextPrefix, pointLayerIdPrefix in *.
  apply prefix_append_inv in Ht as (t & -> & Ht).
  rewrite prefix_append_same.
  repeat (apply prefix_String_inv in Ht as (? & -> & Ht)).
  rewrite !prefix_String_same. apply prefix_empty.
Qed.

(** X8: a source id of the form [`${id}-${ft}-${rest}`] with [ft] one of
    'points', 'linestrings', 'polygons' gets the feature type [ft], whatever
    [id] and [rest] are; a source id that is just [`${id}-${ft}`], without
    the second hyphen, gets no feature type. *)
Theorem getPickingInfo_featureType_template (id ft rest : string)
  (binary : option bool) (data : DataValue) (info info' : PickingInfo) :
  ft ∈ FEATURE_TYPES ->
  getPickingInfo id binary data info = Some info' ->
  (sourceLayer_id info = String.append (featureTypePrefix id ft) rest ->
   featureType info' = Some ft) /\
  (sourceLayer_id info = String.append id (String.append "-" ft) ->
   featureType info' = None).
Proof.
  intros Hft H. apply getPickingInfo_fields in H as [_ ->]. split; intros Hs.
  - assert (Hm : startsWith (sourceLayer_id info) (featureTypePrefix id ft) = true).
    { rewrite Hs. apply prefix_append_self. }
    destruct (List.find _ FEATURE_TYPES) as [ft0|] eqn:Hfind.
    + f_equal. apply List.find_some in Hfind as [Hin Hm'].
      apply (featureTypePrefix_unique id (sourceLayer_id info)); try assumption.
      apply list_elem_of_In. assumption.
    + pose proof (List.find_none _ _ Hfind ft) as Hn. cbv beta in Hn.
      rewrite Hn in Hm; [discriminate|]. apply list_elem_of_In. assumption.
  - destruct (List.find _ FEATURE_TYPES) as [ft0|] eqn:Hfind; [|reflexivity].
    exfalso. apply List.find_some in Hfind as [Hin Hm].
    rewrite Hs in Hm. unfold startsWith, featureTypePrefix in Hm.
    rewrite prefix_append_same in Hm.
    apply list_elem_of_In in Hin. unfold FEATURE_TYPES in Hin, Hft.
    set_unfold.
    destruct Hft as [->|[->|[->|[]]]]; destruct Hin as [->|[->|[->|[]]]];
      vm_compute in Hm; discriminate.
Qed.

Lemma _updateAutoHighlight_elem (id : string) (info : PickingInfo)
  (subLayers : list string) (layer : string) :
  layer ∈ _updateAutoHighlight id info subLayers <->
  layer ∈ subLayers /\
  startsWith layer (pointLayerIdPrefix id)
  = bool_decide (featureType info = Some "points").
Proof.
  induction subLayers as [|l ls IH]; cbn [_updateAutoHighlight].
  - set_solver.
  - destruct (Bool.eqb_spec (startsWith l (pointLayerIdPrefix id))
                (bool_decide (featureType info = Some "points"))) as [E|E].
    + rewrite !elem_of_cons, IH. split.
      * intros [->|[? ?]]; [split; [left; reflexivity | assumption] | split; [right|]; assumption].
      * intros [[->|?] ?]; [left; reflexivity | right; split; assumption].
    + rewrite elem_of_cons, IH. split.
      * intros [? ?]. split; [right|]; assumption.
      * intros [[->|?] ?]; [contradiction | split; assumption].
Qed.

(** X9: after [getPickingInfo], [_updateAutoHighlight] hands the info to
    exactly those sub-layers that lie on the same side of the
    [`${id}-points-`] prefix as the picked source layer: the point
    sub-layers for a pick from a point sub-layer, all the other sub-layers
    otherwise; so a picked direct sub-layer is always among them. *)
Theorem _updateAutoHighlight_same_side (id : string) (binary : option bool)
  (data : DataValue) (info info' : PickingInfo) (subLayers : list string) :
  getPickingInfo id binary data info = Some info' ->
  (forall layer,
     layer ∈ _updateAutoHighlight id info' subLayers <->
     layer ∈ subLayers /\
     startsWith layer (pointLayerIdPrefix id)
     = startsWith (sourceLayer_id info) (pointLayerIdPrefix id)) /\
  (sourceLayer_id info ∈ subLayers ->
   sourceLayer_id info ∈ _updateAutoHighlight id info' subLayers).
Proof.
  intros H.
  assert (Hside : bool_decide (featureType info' = Some "points")
                  = startsWith (sourceLayer_id info) (pointLayerIdPrefix id)).
  { pose proof (getPickingInfo_points_iff _ _ _ _ _ H) as Hiff.
    destruct (startsWith (sourceLayer_id info) (pointLayerIdPrefix id)).
    - apply bool_decide_eq_true. apply Hiff. reflexivity.
    - apply bool_decide_eq_false. intros Hp. apply Hiff in Hp. discriminate. }
  assert (Hall : forall layer,
     layer ∈ _updateAutoHighlight id info' subLayers <->
     layer ∈ subLayers /\
     startsWith layer (pointLayerIdPrefix id)
     = startsWith (sourceLayer_id info) (pointLayerIdPrefix id)).
  { intros layer. rewrite _updateAutoHighlight_elem, Hside. reflexivity. }
  split; [exact Hall|]. intros Hin. apply Hall. split; [assumption | reflexivity].
Qed.
End MorePickingFacts.

Section MoreRenderFacts.
Context {Coord Props Attr LayerClass ForwardMap : Type}.
Context `{!RenderExternals Coord Props Attr LayerClass ForwardMap}.
#[local] Abbreviation PointsLayerProps := (PointsLayerProps Coord Props Attr).
#[local] Abbreviation PointLayer :=
  (PointLayer Coord Props Attr LayerClass ForwardMap).
#[local] Abbreviation GeomRecord := (GeomRecord Coord Props).

(** What one iteration of the loop pushes, when it pushes a layer. *)
Lemma renderPointType_layer binary hoi (points : option PointsLayerProps)
  type (ls : list PointLayer) (l : PointLayer) :
  renderPointType binary hoi points type = Some ls -> l ∈ ls ->
  is_Some (POINT_LAYER type) /\
  layer_id l = String.append "points-" type /\
  layer_highlightedObjectIndex l = hoi /\
  shouldRenderSubLayer (layer_id l) (points_data_opt points) = true /\
  (if String.eqb type "text" && binary
   then exists p, withoutPickingColors points = Some p /\ layer_props l = Some p
   else layer_props l = points).
Proof.
  unfold renderPointType.
  destruct (POINT_LAYER type) as [m|] eqn:E; [|intros [= <-] Hl; set_solver].
  destruct (shouldRenderSubLayer _ _) eqn:Hs; [|intros [= <-] Hl; set_solver].
  destruct (getSubLayerClass _ _); [|intros [= <-] Hl; set_solver].
  destruct (String.eqb type "text" && binary).
  - destruct (withoutPickingColors points) as [p|]; simpl; [|discriminate].
    intros [= <-] Hl. apply list_elem_of_singleton in Hl as ->. simpl.
    split; [eauto|]. repeat split; try assumption.
    exists p. split; reflexivity.
  - simpl. intros [= <-] Hl. apply list_elem_of_singleton in Hl as ->. simpl.
    split; [eauto|]. repeat split; assumption.
Qed.

Lemma renderPointTypes_layer binary hoi (points : option PointsLayerProps)
  (types : list string) (layers : list PointLayer) (l : PointLayer) :
  renderPointTypes binary hoi points types = Some layers -> l ∈ layers ->
  exists type ls, type ∈ types /\
    renderPointType binary hoi points type = Some ls /\ l ∈ ls.
Proof.
  revert layers. induction types as [|t types IH]; intros layers; simpl.
  - intros [= <-] Hl. set_solver.
  - destruct (renderPointType _ _ _ t) as [ls|] eqn:E1; simpl; [|discriminate].
    destruct (renderPointTypes _ _ _ types) as [more|] eqn:E2; simpl; [|discriminate].
    intros [= <-] Hl. apply elem_of_app in Hl as [Hl|Hl].
    + exists t, ls. split; [left|]. split; assumption.
    + destruct (IH _ eq_refl Hl) as (type & ls' & Hin & Hr & Hl').
      exists type, ls'. split; [right; assumption|]. split; assumption.
Qed.

Lemma renderPointTypes_None binary hoi (points : option PointsLayerProps)
  (types : list string) :
  renderPointTypes binary hoi points types = None <->
  exists type, type ∈ types /\ renderPointType binary hoi points type = None.
Proof.
  induction types as [|t types IH]; simpl.
  - split; [discriminate | intros (? & Hin & _); set_solver].
  - destruct (renderPointType _ _ _ t) as [ls|] eqn:E1; simpl.
    + destruct (renderPointTypes _ _ _ types) as [more|] eqn:E2; simpl.
      * split; [discriminate|]. intros (type & Hin & Hn).
        apply elem_of_cons in Hin as [->|Hin]; [congruence|].
        assert (Some more = None) as [=]. apply IH. eauto.
      * split; [|reflexivity]. intros _.
        destruct (proj1 IH eq_refl) as (type & Hin & Hn).
        exists type. split; [right; assumption | assumption].
    + split; [|reflexivity]. intros _. exists t. split; [left | assumption].
Qed.

Lemma renderPointType_None binary hoi (points : option PointsLayerProps) type :
  renderPointType binary hoi points type = None <->
  type = "text" /\ binary = true /\
  shouldRenderSubLayer "points-text" (points_data_opt points) = true /\
  is_Some (getSubLayerClass "points-text" (Some (mapping_type POINT_LAYER_text))) /\
  withoutPickingColors points = None.
Proof.
  unfold renderPointType.
  destruct (String.eqb_spec type "text") as [->|Hne].
  - change (POINT_LAYER "text") with (Some (OwnEntry POINT_LAYER_text)).
    change (String.append "points-" "text") with "points-text".
    cbn [value_type value_props].
    destruct (shouldRenderSubLayer _ _);
      [|split; [discriminate | intros (_ & _ & ? & _); discriminate]].
    destruct (getSubLayerClass _ _);
      [|split; [discriminate | intros (_ & _ & _ & [? ?] & _); discriminate]].
    destruct binary; simpl;
      [|split; [discriminate | intros (_ & ? & _); discriminate]].
    destruct (withoutPickingColors points); simpl.
    + split; [discriminate | intros (_ & _ & _ & _ & ?); discriminate].
    + split; [intros _; repeat split; eauto | reflexivity].
  - split; [|intros (? & _); contradiction].
    destruct (POINT_LAYER type); [|discriminate].
    destruct (shouldRenderSubLayer _ _); [|discriminate].
    destruct (getSubLayerClass _ _); [|discriminate].
    simpl. discriminate.
Qed.

Lemma remapHighlighted_None binary hoi (points : option PointsLayerProps) :
  remapHighlighted binary hoi points = None <->
  binary = false /\ is_Some hoi /\
  forall rs, points_data_opt points ≠ Some (PointRecords rs).
Proof.
  unfold remapHighlighted, points_data_opt.
  destruct binary; [split; [discriminate | intros (? & _); discriminate]|].
  destruct hoi as [t|]; [|split; [discriminate | intros (_ & [? ?] & _); discriminate]].
  destruct points as [p|]; simpl.
  - destruct (points_data p) as [[rs|a]|]; simpl.
    + split; [discriminate|]. intros (_ & _ & Hn). exfalso. apply (Hn rs). reflexivity.
    + split; [|reflexivity]. intros _. split; [reflexivity|]. split; [eauto|]. intros rs; discriminate.
    + split; [|reflexivity]. intros _. split; [reflexivity|]. split; [eauto|]. intros rs; discriminate.
  - split; [|reflexivity]. intros _. split; [reflexivity|]. split; [eauto|]. intros rs; discriminate.
Qed.

(** X10: [_renderPointLayers] throws in exactly two situations: on the
    object path with a finite [highlightedObjectIndex] when
    [layerProps.points.data] is not an array of records, and on the binary
    path when the text sub-layer is to be rendered but
    [layerProps.points.data.attributes] cannot be read. *)
Theorem _renderPointLayers_throws_iff (pointType : string) (hoi : option Z)
  (binary : option bool) (points : option PointsLayerProps) :
  _renderPointLayers pointType hoi binary points = None <->
  (default false binary = false /\ is_Some hoi /\
   forall rs, points_data_opt points ≠ Some (PointRecords rs)) \/
  (default false binary = true /\ "text" ∈ split "+"%char pointType /\
   shouldRenderSubLayer "points-text" (points_data_opt points) = true /\
   is_Some (getSubLayerClass "points-text"
              (Some (mapping_type POINT_LAYER_text))) /\
   withoutPickingColors points = None).
Proof.
  unfold _renderPointLayers.
  destruct (remapHighlighted (default false binary) hoi points) as [h|] eqn:Er; simpl.
  - rewrite renderPointTypes_None. split.
    + intros (type & Hin & Hn). apply renderPointType_None in Hn as (-> & Hb & Hs & Hc & Hw).
      right. split; [assumption|]. split; [apply Set_new_elem; assumption|].
      repeat split; assumption.
    + intros [(Hb & Hh & Hn) | (Hb & Hin & Hs & Hc & Hw)].
      * assert (remapHighlighted (default false binary) hoi points = None) as E.
        { apply remapHighlighted_None. repeat split; assumption. }
        congruence.
      * exists "text". split; [apply Set_new_elem; assumption|].
        apply renderPointType_None. repeat split; assumption.
  - split; [|reflexivity]. intros _. left. apply remapHighlighted_None. assumption.
Qed.

Lemma findIndexFrom_spec (i : Z) (rs : list GeomRecord) (target : Z) :
  (findIndexFrom i rs target = (-1)%Z /\
   forall d, d ∈ rs -> Z.of_nat (source_index d) ≠ target) \/
  (exists n d, findIndexFrom i rs target = (i + Z.of_nat n)%Z /\
     rs !! n = Some d /\ Z.of_nat (source_index d) = target /\
     forall m d', m < n -> rs !! m = Some d' ->
       Z.of_nat (source_index d') ≠ target).
Proof.
  revert i. induction rs as [|d rs IH]; intros i; simpl.
  - left. split; [reflexivity|]. intros d Hd. set_solver.
  - destruct (Z.eqb_spec (Z.of_nat (source_index d)) target) as [E|E].
    + right. exists 0, d. split; [lia|]. split; [reflexivity|]. split; [assumption|]. lia.
    + destruct (IH (i + 1)%Z) as [[Hr Hn] | (n & d' & Hr & Hl & Ht & Hlt)].
      * left. split; [assumption|]. intros x Hx.
        apply elem_of_cons in Hx as [->|Hx]; [assumption | apply Hn; assumption].
      * right. exists (S n), d'. split; [lia|]. split; [assumption|].
        split; [assumption|]. intros [|m] x Hm Hx; simpl in Hx.
        -- injection Hx as <-. assumption.
        -- apply (Hlt m); [lia | assumption].
Qed.

(** X11: on the object path with a finite [highlightedObjectIndex], every
    point sub-layer receives the position of the first point record whose
    [__source.index] is that feature index, and [-1] when the feature has no
    point record. *)
Theorem _renderPointLayers_highlight_remap (pointType : string) (target : Z)
  (binary : option bool) (p : PointsLayerProps) (rs : list GeomRecord)
  (layers : list PointLayer) :
  default false binary = false ->
  points_data p = Some (PointRecords rs) ->
  _renderPointLayers pointType (Some target) binary (Some p) = Some layers ->
  forall l, l ∈ layers ->
    (layer_highlightedObjectIndex l = Some (-1)%Z /\
     forall d, d ∈ rs -> Z.of_nat (source_index d) ≠ target) \/
    (exists n d, layer_highlightedObjectIndex l = Some (Z.of_nat n) /\
       rs !! n = Some d /\ Z.of_nat (source_index d) = target /\
       forall m d', m < n -> rs !! m = Some d' ->
         Z.of_nat (source_index d') ≠ target).
Proof.
  intros Hb Hp. unfold _renderPointLayers. rewrite Hb.
  unfold remapHighlighted. rewrite Hp. simpl.
  intros Hr l Hl.
  destruct (renderPointTypes_layer _ _ _ _ _ _ Hr Hl) as (type & ls & _ & Ht & Hl').
  destruct (renderPointType_layer _ _ _ _ _ _ Ht Hl') as (_ & _ & -> & _).
  destruct (findIndexFrom_spec 0 rs target) as [[-> Hn] | (n & d & -> & Hd)].
  - left. split; [reflexivity | assumption].
  - right. exists n, d. split; [f_equal; lia | assumption].
Qed.

(** X12: on the binary path [highlightedObjectIndex] reaches every point
    sub-layer unchanged; the text sub-layer gets the points data without
    the [instancePickingColors] attribute and with every other attribute
    as it was, and every other point sub-layer gets [layerProps.points]
    itself. *)
Theorem _renderPointLayers_binary_props (pointType : string) (hoi : option Z)
  (points : option PointsLayerProps) (layers : list PointLayer) :
  _renderPointLayers pointType hoi (Some true) points = Some layers ->
  forall l, l ∈ layers ->
    layer_highlightedObjectIndex l = hoi /\
    (layer_id l ≠ "points-text" -> layer_props l = points) /\
    (layer_id l = "points-text" ->
     exists attributes attributes',
       points_data_opt points = Some (PointBinary attributes) /\
       layer_props l
       = Some (mkPointsLayerProps _ _ _ (Some (PointBinary attributes'))) /\
       attributes' !! "instancePickingColors" = None /\
       forall k, k ≠ "instancePickingColors" ->
         attributes' !! k = attributes !! k).
Proof.
  unfold _renderPointLayers. simpl. intros Hr l Hl.
  destruct (renderPointTypes_layer _ _ _ _ _ _ Hr Hl) as (type & ls & _ & Ht & Hl').
  destruct (renderPointType_layer _ _ _ _ _ _ Ht Hl') as (_ & Hid & Hh & _ & Hprops).
  split; [assumption|].
  destruct (String.eqb_spec type "text") as [->|Hne]; simpl in Hprops.
  - split; [intros Hn; contradiction|]. intros _.
    destruct Hprops as (p & Hw & ->).
    unfold withoutPickingColors in Hw.
    destruct (points_data_opt points) as [[rs|attributes]|]; try discriminate.
    injection Hw as <-.
    exists attributes, (delete "instancePickingColors" attributes).
    split; [reflexivity|]. split; [reflexivity|].
    split; [apply lookup_delete_eq|]. intros k Hk. apply lookup_delete_ne. congruence.
  - split; [intros _; assumption|]. intros Hid'. exfalso. apply Hne.
    rewrite Hid in Hid'. change "points-text" with (String.append "points-" "text") in Hid'.
    eapply append_inv_head. exact Hid'.
Qed.

(** X13: when [shouldRenderSubLayer] and [getSubLayerClass] accept every
    point sub-layer, the object path renders exactly one layer for each
    token of [pointType] for which the read [POINT_LAYER[token]] is not
    [undefined] (the types 'circle', 'icon' and 'text', and the names of
    the members inherited from [Object.prototype]), in the order in which
    the tokens first occur, each with [layerProps.points] as its props. *)
Theorem _renderPointLayers_all_rendered (pointType : string) (hoi hoi' : option Z)
  (binary : option bool) (points : option PointsLayerProps) :
  (forall id, shouldRenderSubLayer id (points_data_opt points) = true) ->
  (forall id c, is_Some (getSubLayerClass id c)) ->
  default false binary = false ->
  remapHighlighted false hoi points = Some hoi' ->
  exists layers,
    _renderPointLayers pointType hoi binary points = Some layers /\
    map layer_id layers
    = map (String.append "points-")
          (filter (fun t => t ∈ knownPointTypes \/ t ∈ Object_prototype_members)
                  (Set_new (split "+"%char pointType))) /\
    Forall (fun l => layer_highlightedObjectIndex l = hoi' /\ layer_props l = points)
           layers.
Proof.
  intros Hs Hc Hb Hr. unfold _renderPointLayers. rewrite Hb, Hr.
  cbn [mbind option_bind].
  generalize (Set_new (split "+"%char pointType)). intros types.
  induction types as [|t types (layers & IH & Hids & Hall)].
  - exists []. split; [reflexivity|]. split; [reflexivity | constructor].
  - cbn [renderPointTypes]. rewrite filter_cons. unfold renderPointType.
    destruct (POINT_LAYER t) as [m|] eqn:E.
    + rewrite decide_True by (apply POINT_LAYER_known; rewrite E; eauto).
      rewrite Hs. destruct (Hc (String.append "points-" t) (value_type m)) as [c ->].
      rewrite andb_false_r. cbn [mbind option_bind]. rewrite IH.
      cbn [mbind option_bind].
      eexists. split; [reflexivity|]. split.
      * cbn [map app fmap list_fmap layer_id]. rewrite <- Hids. reflexivity.
      * constructor; [split; reflexivity | assumption].
    + rewrite decide_False.
      * cbn [mbind option_bind]. rewrite IH. cbn [mbind option_bind app].
        exists layers. split; [reflexivity|]. split; assumption.
      * intros Hk. apply POINT_LAYER_known in Hk as [? ?]. congruence.
Qed.
End MoreRenderFacts.

Section PolygonLineFacts.
Context {V T Data LayerClass : Type} `{!SubLayerExternals V T Data LayerClass}.
#[local] Abbreviation SubLayer := (SubLayer V T Data LayerClass).
#[local] Abbreviation BucketProps := (BucketProps Data).

Lemma subLayerClassIfRendered_None (id : string) (b : option BucketProps)
  (type : LayerClass) :
  subLayerClassIfRendered id b type = None <->
  shouldRenderSubLayerOf id (bucket_data_opt b) = false \/
  getSubLayerClassOf id type = None.
Proof.
  unfold subLayerClassIfRendered.
  destruct (shouldRenderSubLayerOf id (bucket_data_opt b)).
  - split; [right; assumption | intros [?|?]; [discriminate | assumption]].
  - split; [left; reflexivity | reflexivity].
Qed.

(** X14: the polygon fill layer is [null] exactly when
    [shouldRenderSubLayer] or [getSubLayerClass] turns it down.  Otherwise
    it has the id 'polygons-fill' and the polygons bucket as props; it is
    given [getLineColor] only when both [extruded] and [wireframe] are set,
    its [lineColors] update trigger is that very condition, and every other
    forwarded prop and update trigger is passed on as [forwardProps] gave
    it. *)
Theorem _renderPolygonLayer_spec (extruded wireframe : bool)
  (polygons : option BucketProps) :
  (_renderPolygonLayer extruded wireframe polygons = None <->
   shouldRenderSubLayerOf "polygons-fill" (bucket_data_opt polygons) = false \/
   getSubLayerClassOf "polygons-fill" POLYGON_LAYER_type = None) /\
  forall layer, _renderPolygonLayer extruded wireframe polygons = Some layer ->
    sub_id layer = "polygons-fill" /\
    sub_props layer = polygons /\
    sub_updateTriggers layer = forwarded_updateTriggers (sub_forwarded layer) /\
    forwarded_props (sub_forwarded layer) !! "getLineColor"
    = (if extruded && wireframe
       then forwarded_props forwardProps_POLYGON_LAYER !! "getLineColor"
       else None) /\
    (forall k, k ≠ "getLineColor" ->
       forwarded_props (sub_forwarded layer) !! k
       = forwarded_props forwardProps_POLYGON_LAYER !! k) /\
    sub_updateTriggers layer !! "lineColors"
    = Some (TriggerBool (extruded && wireframe)) /\
    (forall k, k ≠ "lineColors" ->
       sub_updateTriggers layer !! k
       = forwarded_updateTriggers forwardProps_POLYGON_LAYER !! k).
Proof.
  unfold _renderPolygonLayer. split.
  - rewrite <- subLayerClassIfRendered_None.
    destruct (subLayerClassIfRendered _ _ _); split; congruence.
  - intros layer.
    destruct (subLayerClassIfRendered _ _ _) as [c|]; [|discriminate].
    intros [= <-]. cbn [sub_id sub_props sub_updateTriggers sub_forwarded
                         forwarded_props forwarded_updateTriggers].
    split; [reflexivity|]. split; [reflexivity|]. split; [reflexivity|].
    split; [|split; [|split]].
    + destruct (extruded && wireframe); [reflexivity | apply lookup_delete_eq].
    + intros k Hk. destruct (extruded && wireframe); [reflexivity|].
      apply lookup_delete_ne. congruence.
    + apply lookup_insert_eq.
    + intros k Hk. apply lookup_insert_ne. congruence.
Qed.

(** X15: [_renderLineLayers] returns [null] exactly when neither the
    polygon outline nor the line strings are rendered; otherwise it returns
    two slots of which at least one holds a layer.  The outline slot is
    empty whenever [extruded] is set or [stroked] is not; the layers have
    the ids 'polygons-stroke' and 'linestrings', the outline and line
    buckets as props, and both carry the same forwarded props. *)
Theorem _renderLineLayers_spec (extruded stroked : bool)
  (polygonsOutline lines : option BucketProps) :
  (_renderLineLayers extruded stroked polygonsOutline lines = None <->
   (extruded = true \/ stroked = false \/
    subLayerClassIfRendered "polygons-stroke" polygonsOutline LINE_LAYER_type = None) /\
   subLayerClassIfRendered "linestrings" lines LINE_LAYER_type = None) /\
  forall stroke lineStrings,
    _renderLineLayers extruded stroked polygonsOutline lines
    = Some (stroke, lineStrings) ->
    (is_Some stroke \/ is_Some lineStrings) /\
    (extruded = true \/ stroked = false -> stroke = None) /\
    (forall s, stroke = Some s ->
       sub_id s = "polygons-stroke" /\ sub_props s = polygonsOutline /\
       sub_forwarded s = forwardProps_LINE_LAYER) /\
    (forall l, lineStrings = Some l ->
       sub_id l = "linestrings" /\ sub_props l = lines /\
       sub_forwarded l = forwardProps_LINE_LAYER) /\
    (is_Some lineStrings <->
     is_Some (subLayerClassIfRendered "linestrings" lines LINE_LAYER_type)).
Proof.
  unfold _renderLineLayers.
  set (sc := subLayerClassIfRendered "polygons-stroke" polygonsOutline LINE_LAYER_type).
  set (lc := subLayerClassIfRendered "linestrings" lines LINE_LAYER_type).
  clearbody sc lc. split.
  - destruct extruded, stroked, sc, lc; simpl; split; try discriminate;
      try reflexivity; try (intros [[?|[?|?]] ?]; discriminate);
      intros _; split; auto.
  - intros stroke lineStrings H.
    assert (Hst : stroke = (fun c => mkSubLayer V T Data LayerClass "polygons-stroke" c
                              forwardProps_LINE_LAYER
                              (forwarded_updateTriggers forwardProps_LINE_LAYER)
                              polygonsOutline)
                           <$> (if negb extruded && stroked then sc else None) /\
                  lineStrings = (fun c => mkSubLayer V T Data LayerClass "linestrings" c
                              forwardProps_LINE_LAYER
                              (forwarded_updateTriggers forwardProps_LINE_LAYER)
                              lines) <$> lc /\
                  (is_Some stroke \/ is_Some lineStrings)).
    { destruct (if negb extruded && stroked then sc else None), lc;
        simpl in H; try discriminate; injection H as <- <-; simpl;
        (split; [reflexivity|split; [reflexivity|]]);
        first [left; eexists; reflexivity | right; eexists; reflexivity]. }
    destruct Hst as (-> & -> & Hsome).
    split; [exact Hsome|]. split; [|split; [|split]].
    + intros [->| ->]; [reflexivity|]. rewrite andb_false_r. reflexivity.
    + intros s Hs. destruct (if negb extruded && stroked then sc else None);
        simpl in Hs; [|discriminate]. injection Hs as <-. repeat split.
    + intros l Hl. destruct lc; simpl in Hl; [|discriminate].
      injection Hl as <-. repeat split.
    + apply fmap_is_Some.
Qed.
End PolygonLineFacts.

Section RenderLayersFacts.
Context {Coord Props Attr LayerClass ForwardMap V T Data : Type}.
Context `{!RenderExternals Coord Props Attr LayerClass ForwardMap}.
Context `{!SubLayerExternals V T Data LayerClass}.

Lemma _renderPointLayers_ids (pointType : string) (hoi : option Z)
  (binary : option bool) (points : option (PointsLayerProps Coord Props Attr))
  (layers : list (PointLayer Coord Props Attr LayerClass ForwardMap)) :
  _renderPointLayers pointType hoi binary points = Some layers ->
  NoDup (map layer_id layers) /\
  forall x, x ∈ map layer_id layers -> exists t, x = String.append "points-" t.
Proof.
  unfold _renderPointLayers.
  destruct (remapHighlighted _ _ _) as [hoi'|]; simpl; [|discriminate].
  intros Hr. apply renderPointTypes_sublist in Hr as (sub & Hsub & _ & Hids).
  rewrite Hids. split.
  - apply (NoDup_fmap_2 _). eapply sublist_NoDup; [apply Set_new_NoDup | eassumption].
  - intros x Hx. apply list_elem_of_fmap in Hx as (t & -> & _). eauto.
Qed.

Lemma NoDup_around_points (A B D C : list string) :
  NoDup (A ++ B ++ D) ->
  (forall x t, x ∈ A ++ B ++ D -> x ≠ String.append "points-" t) ->
  NoDup C ->
  (forall x, x ∈ C -> exists t, x = String.append "points-" t) ->
  NoDup (A ++ B ++ C ++ D).
Proof.
  intros Hnd Hfix HC Hpts.
  apply NoDup_app in Hnd as (HA & HAB & HBD).
  apply NoDup_app in HBD as (HB & HBD & HD).
  assert (Hsep : forall x, x ∈ C -> x ∉ A ++ B ++ D).
  { intros x Hx Hin. destruct (Hpts x Hx) as [t ->]. eapply Hfix; eauto. }
  apply NoDup_app. split; [assumption|]. split.
  - intros x Hx Hin. apply elem_of_app in Hin as [Hin|Hin]; [eapply HAB; eauto; set_solver|].
    apply elem_of_app in Hin as [Hin|Hin]; [|eapply HAB; eauto; set_solver].
    apply (Hsep x Hin). set_solver.
  - apply NoDup_app. split; [assumption|]. split.
    + intros x Hx Hin. apply elem_of_app in Hin as [Hin|Hin]; [|eapply HBD; eauto].
      apply (Hsep x Hin). set_solver.
    + apply NoDup_app. split; [assumption|]. split; [|assumption].
      intros x Hx Hin. apply (Hsep x Hx). set_solver.
Qed.

(** X16: [renderLayers] throws exactly when [_renderPointLayers] does.
    Otherwise the fill layer sits in the first slot when [extruded] is not
    set and in the last slot when it is, never in both, and all the layers
    in the returned array have pairwise different ids. *)
Theorem renderLayers_spec (extruded wireframe stroked : bool) (pointType : string)
  (hoi : option Z) (binary : option bool)
  (polygons polygonsOutline lines : option (BucketProps Data))
  (points : option (PointsLayerProps Coord Props Attr)) :
  (renderLayers extruded wireframe stroked pointType hoi binary
                polygons polygonsOutline lines points = None <->
   _renderPointLayers pointType hoi binary points = None) /\
  forall r,
    renderLayers extruded wireframe stroked pointType hoi binary
                 polygons polygonsOutline lines points = Some r ->
    fill_below r
    = (if extruded then None else _renderPolygonLayer extruded wireframe polygons) /\
    fill_above r
    = (if extruded then _renderPolygonLayer extruded wireframe polygons else None) /\
    lineLayers r = _renderLineLayers extruded stroked polygonsOutline lines /\
    Some (pointLayers r) = _renderPointLayers pointType hoi binary points /\
    NoDup (renderedIds r).
Proof.
  unfold renderLayers. split.
  - destruct (_renderPointLayers pointType hoi binary points); simpl; split; congruence.
  - intros r.
    destruct (_renderPointLayers pointType hoi binary points) as [pl|] eqn:Ep;
      simpl; [|discriminate].
    intros [= <-]. cbn [fill_below fill_above lineLayers pointLayers].
    split; [destruct extruded; reflexivity|].
    split; [destruct extruded; reflexivity|].
    split; [reflexivity|]. split; [reflexivity|].
    destruct (_renderPointLayers_ids _ _ _ _ _ Ep) as [Hnd Hpts].
    unfold renderedIds. cbn [fill_below fill_above lineLayers pointLayers].
    destruct (_renderPolygonLayer_spec extruded wireframe polygons) as [_ Hfill].
    destruct (_renderLineLayers_spec extruded stroked polygonsOutline lines) as [_ Hline].
    assert (Hf : forall f, _renderPolygonLayer extruded wireframe polygons = Some f ->
                           sub_id f = "polygons-fill").
    { intros f Hf. apply Hfill in Hf as [? _]. assumption. }
    set (B := match _renderLineLayers extruded stroked polygonsOutline lines with
              | Some (stroke, lineStrings) =>
                  option_list (sub_id <$> stroke) ++ option_list (sub_id <$> lineStrings)
              | None => []
              end).
    assert (HB : B = [] \/ B = ["polygons-stroke"] \/ B = ["linestrings"]
                 \/ B = ["polygons-stroke"; "linestrings"]).
    { unfold B.
      destruct (_renderLineLayers extruded stroked polygonsOutline lines)
        as [[stroke lineStrings]|]; [|left; reflexivity].
      destruct (Hline stroke lineStrings eq_refl) as (_ & _ & Hs & Hl & _).
      destruct stroke as [s|], lineStrings as [l|]; simpl.
      - destruct (Hs s eq_refl) as [-> _]. destruct (Hl l eq_refl) as [-> _]. auto.
      - destruct (Hs s eq_refl) as [-> _]. auto.
      - destruct (Hl l eq_refl) as [-> _]. auto.
      - auto. }
    apply NoDup_around_points; [| |assumption|assumption].
    + destruct extruded;
        destruct (_renderPolygonLayer _ wireframe polygons) as [f|] eqn:Efill;
        simpl; try rewrite (Hf f eq_refl);
        destruct HB as [-> | [-> | [-> | ->]]];
        apply (bool_decide_unpack _); vm_compute; exact I.
    + intros x t Hx.
      assert (Hx' : x ∈ ["polygons-fill"; "polygons-stroke"; "linestrings"]).
      { destruct extruded;
          destruct (_renderPolygonLayer _ wireframe polygons) as [f|] eqn:Efill;
          simpl in Hx; try rewrite (Hf f eq_refl) in Hx;
          destruct HB as [-> | [-> | [-> | ->]]];
          cbn [app] in Hx;
          repeat (apply elem_of_cons in Hx as [->|Hx];
                  [apply (bool_decide_unpack _); vm_compute; exact I|]);
          apply elem_of_nil in Hx; contradiction. }
      repeat (apply elem_of_cons in Hx' as [->|Hx']; [simpl; discriminate|]).
      apply elem_of_nil in Hx'. contradiction.
Qed.
End RenderLayersFacts.

Section UpdateThenPick.
Context {Coord Props LP : Type} `{!Externals Coord Props LP}.
#[local] Abbreviation World := (World Coord Props).
#[local] Abbreviation State := (State LP).
#[local] Abbreviation DataValue := (DataValue Coord Props).

Lemma _updateStateJSON_binary (data : DataValue) (dc : DataChanged)
  (st : State) (w : World) :
  binary (_updateStateJSON data dc st w).1 = binary st.
Proof.
  unfold _updateStateJSON, buildFeatures.
  unfold mbind, M_bind, bind, mret, M_ret, ret, logCall, getHeap.
  destruct dc as [| |rs].
  - destruct (separateGeojsonFeatures _ _ _). reflexivity.
  - destruct (separateGeojsonFeatures _ _ _). reflexivity.
  - destruct (copyBuckets _ _) as [[nf fd] w1].
    destruct (foldM _ _ _ _). reflexivity.
Qed.

Lemma updateState_binary_flag (data : DataValue) (dc : DataChanged)
  (st : State) (w : World) :
  dataChanged_truthy dc = true ->
  binary (updateState data dc st w).1 = Some (isBinary data).
Proof.
  intros Ht. unfold updateState. rewrite Ht. cbn [negb].
  destruct (isBinary data); [reflexivity|].
  rewrite _updateStateJSON_binary. reflexivity.
Qed.

(** X17: picking with the state left by [updateState] for the same [data].
    For object data the pick never throws and keeps the index of the
    sub-layer; for binary data whose [points.globalFeatureIds] can be read,
    a pick with a non-negative index from a sub-layer whose id starts with
    [`${id}-points-text`] gets the feature id stored at that index and the
    feature type 'points'. *)
Theorem updateState_then_getPickingInfo (id : string) (data : DataValue)
  (dc : DataChanged) (st : State) (w : World) (info : PickingInfo) :
  dataChanged_truthy dc = true ->
  let st' := (updateState data dc st w).1 in
  (isBinary data = false ->
   exists info', getPickingInfo id (binary st') data info = Some info' /\
     index info' = index info /\ sourceLayer_id info' = sourceLayer_id info) /\
  (isBinary data = true ->
   forall value z,
     points_globalFeatureIds data = Some value ->
     index info = Some z -> (0 <= z)%Z ->
     startsWith (sourceLayer_id info) (pointsTextPrefix id) = true ->
     exists info', getPickingInfo id (binary st') data info = Some info' /\
       index info' = value !! Z.to_nat z /\
       featureType info' = Some "points").
Proof.
  intros Ht. cbv zeta. rewrite (updateState_binary_flag data dc st w Ht). split.
  - intros ->. unfold getPickingInfo. simpl. rewrite andb_false_r.
    eexists. split; [reflexivity|]. split; reflexivity.
  - intros -> value z Hv Hi Hz Hs.
    assert (Hg : getPickingInfo id (Some true) data info
                 = Some (mkPickingInfo (value !! Z.to_nat z) (sourceLayer_id info)
                           (List.find (fun ft => startsWith (sourceLayer_id info)
                                                   (featureTypePrefix id ft))
                                      FEATURE_TYPES))).
    { unfold getPickingInfo. rewrite Hi, Hs, Hv. simpl.
      destruct (Z.leb_spec 0 z) as [_|]; [|lia]. reflexivity. }
    eexists. split; [exact Hg|]. split; [reflexivity|].
    exact (getPickingInfo_text_is_points id (Some true) data info _ Hs Hg).
Qed.
End UpdateThenPick.

(** * Instances of the further properties *)

Lemma updateState_ranges_without_buckets_witness :
  isBinary (DArray samplePost : DataValue Z unit) = false /\
  calls (updateState (DArray samplePost) (DCRanges [mkRange 0 1; mkRange 1 2])
                     initializeState sampleWorld).2
  = [call_getGeojsonFeatures;
     call_separateGeojsonFeatures (Some (mkRange 0 1));
     call_separateGeojsonFeatures (Some (mkRange 1 2));
     call_createLayerPropsFromFeatures].
Proof.
  split; [reflexivity|].
  exact (proj1 (proj2 (updateState_ranges_without_buckets
           (DArray samplePost) [mkRange 0 1; mkRange 1 2]
           initializeState sampleWorld (fun k => eq_refl) eq_refl))).
Defined.

Lemma updateState_empty_ranges_witness :
  wf_state sampleRebuilt.1 sampleRebuilt.2 /\
  calls (updateState (DArray samplePost) (DCRanges []) sampleRebuilt.1 sampleRebuilt.2).2
  = calls sampleRebuilt.2
      ++ [call_getGeojsonFeatures; call_createLayerPropsFromFeatures].
Proof.
  split; [exact sampleRebuilt_wf|].
  exact (proj1 (updateState_empty_ranges (DArray samplePost)
                  sampleRebuilt.1 sampleRebuilt.2 sampleRebuilt_wf eq_refl)).
Defined.

Lemma aliasedState_wf : wf_state aliasedState aliasedWorld.
Proof.
  intros k l H. destruct k; vm_compute in H; try discriminate; injection H as <-;
    apply elem_of_dom; vm_compute; eauto.
Defined.

Lemma _updateStateJSON_ranges_no_alias_witness :
  wf_state aliasedState aliasedWorld /\
  features aliasedState pointBucket = features aliasedState lineBucket /\
  features (_updateStateJSON (DArray samplePost) (DCRanges [mkRange 0 1])
              aliasedState aliasedWorld).1 pointBucket = Some 1 /\
  features (_updateStateJSON (DArray samplePost) (DCRanges [mkRange 0 1])
              aliasedState aliasedWorld).1 lineBucket ≠ Some 1.
Proof.
  split; [exact aliasedState_wf|]. split; [reflexivity|].
  assert (Hp : features (_updateStateJSON (DArray samplePost) (DCRanges [mkRange 0 1])
                           aliasedState aliasedWorld).1 pointBucket = Some 1)
    by (vm_compute; reflexivity).
  split; [exact Hp|]. intros Hl.
  discriminate (_updateStateJSON_ranges_no_alias (DArray samplePost) [mkRange 0 1]
                  aliasedState aliasedWorld aliasedState_wf
                  pointBucket lineBucket 1 Hp Hl).
Defined.

Lemma sampleRebuilt_has_0 : 0 ∈ dom (heap sampleRebuilt.2).
Proof. apply elem_of_dom. vm_compute. eauto. Defined.

Lemma updateMany_keeps_arrays_witness :
  wf_state sampleRebuilt.1 sampleRebuilt.2 /\
  heap (updateMany sampleSteps sampleRebuilt.1 sampleRebuilt.2).2 !! 0
  = heap sampleRebuilt.2 !! 0.
Proof.
  split; [exact sampleRebuilt_wf|].
  exact (proj2 (updateMany_keeps_arrays sampleSteps sampleRebuilt.1 sampleRebuilt.2
                  sampleRebuilt_wf) 0 sampleRebuilt_has_0).
Defined.

Lemma updateState_full_rebuild_resets_diff_witness :
  "data changed" ≠ EmptyString /\
  forall k, featuresDiff (updateState (DArray samplePrior) (DCReason "data changed")
                            sampleRanged.1 sampleRanged.2).1 k = None.
Proof.
  split; [discriminate|].
  exact (proj1 (updateState_full_rebuild_resets_diff (DArray samplePrior)
                  "data changed" sampleRanged.1 sampleRanged.2
                  ltac:(discriminate) eq_refl)).
Defined.

Lemma getPickingInfo_throws_iff_witness :
  getPickingInfo "L" (Some true) (DArray samplePrior)
    (mkPickingInfo (Some 0%Z) "L-points-text" None) = None.
Proof.
  apply (proj2 (getPickingInfo_throws_iff "L" (Some true) (DArray samplePrior)
                  (mkPickingInfo (Some 0%Z) "L-points-text" None))).
  repeat split; reflexivity.
Defined.

Lemma getPickingInfo_text_is_points_witness :
  startsWith "L-points-text-characters" (pointsTextPrefix "L") = true /\
  exists info',
    getPickingInfo "L" (Some true) sampleBinary
      (mkPickingInfo (Some 2%Z) "L-points-text-characters" None) = Some info' /\
    featureType info' = Some "points".
Proof.
  split; [reflexivity|]. eexists. split; [reflexivity|].
  exact (getPickingInfo_text_is_points "L" (Some true) sampleBinary
           (mkPickingInfo (Some 2%Z) "L-points-text-characters" None) _
           eq_refl eq_refl).
Defined.

Lemma getPickingInfo_featureType_template_witness :
  "polygons" ∈ FEATURE_TYPES /\
  exists info',
    getPickingInfo "L" (Some false) (DArray samplePrior)
      (mkPickingInfo (Some 1%Z) "L-polygons-fill" None) = Some info' /\
    featureType info' = Some "polygons".
Proof.
  assert (Hin : "polygons" ∈ FEATURE_TYPES).
  { unfold FEATURE_TYPES. do 2 apply list_elem_of_further. apply list_elem_of_here. }
  split; [exact Hin|]. eexists. split; [reflexivity|].
  exact (proj1 (getPickingInfo_featureType_template "L" "polygons" "fill"
                  (Some false) (DArray samplePrior)
                  (mkPickingInfo (Some 1%Z) "L-polygons-fill" None) _ Hin eq_refl)
           eq_refl).
Defined.

Lemma _updateAutoHighlight_same_side_witness :
  "L-points-circle"
    ∈ _updateAutoHighlight "L"
        (mkPickingInfo (Some 1%Z) "L-points-circle" (Some "points"))
        ["L-polygons-fill"; "L-linestrings"; "L-points-circle"; "L-points-text"].
Proof.
  apply (proj2 (_updateAutoHighlight_same_side "L" (Some false) (DArray samplePrior)
                  (mkPickingInfo (Some 1%Z) "L-points-circle" None)
                  (mkPickingInfo (Some 1%Z) "L-points-circle" (Some "points"))
                  ["L-polygons-fill"; "L-linestrings"; "L-points-circle"; "L-points-text"]
                  eq_refl)).
  simpl. set_solver.
Defined.

Lemma _renderPointLayers_throws_iff_witness :
  _renderPointLayers "circle+text" None (Some true) samplePointRecords = None.
Proof.
  apply (proj2 (_renderPointLayers_throws_iff "circle+text" None (Some true)
                  samplePointRecords)).
  right. split; [reflexivity|]. split; [vm_compute; set_solver|].
  split; [reflexivity|]. split; [eexists; reflexivity | reflexivity].
Defined.

Lemma _renderPointLayers_highlight_remap_witness :
  _renderPointLayers "circle" (Some 2%Z) (Some false) (Some sampleRecordsProps)
  = Some [mkPointLayer _ _ _ _ _ "points-circle" "ScatterplotLayer" (Some tt)
            (Some 2%Z) (Some sampleRecordsProps)] /\
  exists n d,
    Some 2%Z = Some (Z.of_nat n) /\
    sampleRecords !! n = Some d /\ Z.of_nat (source_index d) = 2%Z.
Proof.
  assert (Hr : _renderPointLayers "circle" (Some 2%Z) (Some false)
                 (Some sampleRecordsProps)
               = Some [mkPointLayer _ _ _ _ _ "points-circle" "ScatterplotLayer" (Some tt)
                         (Some 2%Z) (Some sampleRecordsProps)]) by reflexivity.
  split; [exact Hr|].
  destruct (_renderPointLayers_highlight_remap "circle" 2%Z (Some false)
              sampleRecordsProps sampleRecords _ eq_refl eq_refl Hr _
              (list_elem_of_here _ _))
    as [[H _] | (n & d & H & Hd & Ht & _)].
  - discriminate H.
  - exists n, d. split; [exact H|]. split; [exact Hd | exact Ht].
Defined.

Lemma _renderPointLayers_binary_props_witness :
  _renderPointLayers "text" (Some 4%Z) (Some true) sampleBinaryPoints
  = Some [mkPointLayer _ _ _ _ _ "points-text" "TextLayer" (Some tt) (Some 4%Z)
            (Some (mkPointsLayerProps _ _ _
                     (Some (PointBinary (<["getPosition" := tt]> ∅)))))] /\
  layer_highlightedObjectIndex
    (mkPointLayer Z unit unit string unit "points-text" "TextLayer" (Some tt) (Some 4%Z)
       (Some (mkPointsLayerProps _ _ _
                (Some (PointBinary (<["getPosition" := tt]> ∅))))))
  = Some 4%Z.
Proof.
  assert (Hr : _renderPointLayers "text" (Some 4%Z) (Some true) sampleBinaryPoints
    = Some [mkPointLayer _ _ _ _ _ "points-text" "TextLayer" (Some tt) (Some 4%Z)
              (Some (mkPointsLayerProps _ _ _
                       (Some (PointBinary (<["getPosition" := tt]> ∅)))))])
    by (vm_compute; reflexivity).
  split; [exact Hr|].
  exact (proj1 (_renderPointLayers_binary_props "text" (Some 4%Z) sampleBinaryPoints
                  _ Hr _ (list_elem_of_here _ _))).
Defined.

Lemma _renderPointLayers_all_rendered_witness :
  exists layers,
    (@_renderPointLayers _ _ _ _ _ overridingRenderExternals
       "text+toString+foo+circle+text" None (Some false) samplePointsProps
     = Some layers) /\
    map layer_id layers = ["points-text"; "points-toString"; "points-circle"].
Proof.
  destruct (@_renderPointLayers_all_rendered _ _ _ _ _ overridingRenderExternals
              "text+toString+foo+circle+text" None None
              (Some false) samplePointsProps) as (layers & Hr & Hids & _).
  - intros id. apply bool_decide_eq_true_2. eexists. reflexivity.
  - intros id c. eexists. reflexivity.
  - reflexivity.
  - reflexivity.
  - exists layers. split; [exact Hr | exact Hids].
Defined.

Lemma _renderPolygonLayer_spec_witness :
  exists layer,
    _renderPolygonLayer false true sampleBucketProps = Some layer /\
    forwarded_props (sub_forwarded layer) !! "getLineColor" = None /\
    forwarded_props (sub_forwarded layer) !! "getFillColor" = Some 2%Z.
Proof.
  destruct (_renderPolygonLayer false true sampleBucketProps) as [layer|] eqn:E;
    [|vm_compute in E; discriminate].
  exists layer. split; [reflexivity|].
  destruct (proj2 (_renderPolygonLayer_spec false true sampleBucketProps) layer E)
    as (_ & _ & _ & Hline & Hrest & _).
  split; [exact Hline|]. rewrite (Hrest "getFillColor") by discriminate.
  reflexivity.
Defined.

Lemma _renderLineLayers_spec_witness :
  exists stroke lineStrings,
    _renderLineLayers true true sampleBucketProps sampleBucketProps
    = Some (stroke, lineStrings) /\
    stroke = None /\ is_Some lineStrings.
Proof.
  destruct (_renderLineLayers true true sampleBucketProps sampleBucketProps)
    as [[stroke lineStrings]|] eqn:E; [|vm_compute in E; discriminate].
  exists stroke, lineStrings. split; [reflexivity|].
  destruct (proj2 (_renderLineLayers_spec true true sampleBucketProps sampleBucketProps)
              stroke lineStrings E) as (_ & Hs & _ & _ & Hl).
  split; [apply Hs; left; reflexivity|].
  apply Hl. eexists. vm_compute. reflexivity.
Defined.

Lemma renderLayers_spec_witness :
  exists r,
    renderLayers false false true "circle+text" None (Some false)
                 sampleBucketProps sampleBucketProps sampleBucketProps
                 samplePointsProps = Some r /\
    renderedIds r = ["polygons-fill"; "polygons-stroke"; "linestrings";
                     "points-circle"; "points-text"] /\
    NoDup (renderedIds r).
Proof.
  destruct (renderLayers false false true "circle+text" None (Some false)
              sampleBucketProps sampleBucketProps sampleBucketProps
              samplePointsProps) as [r|] eqn:E; [|vm_compute in E; discriminate].
  exists r. split; [reflexivity|].
  pose proof (proj2 (renderLayers_spec false false true "circle+text" None (Some false)
                       sampleBucketProps sampleBucketProps sampleBucketProps
                       samplePointsProps) r E) as (_ & _ & _ & _ & Hnd).
  split; [|exact Hnd].
  revert E. vm_compute. intros [= <-]. reflexivity.
Defined.

Lemma updateState_then_getPickingInfo_witness :
  dataChanged_truthy (DCReason "data changed") = true /\
  exists info',
    getPickingInfo "L"
      (binary (updateState sampleBinary (DCReason "data changed")
                 initializeState sampleWorld).1)
      sampleBinary (mkPickingInfo (Some 2%Z) "L-points-text" None) = Some info' /\
    index info' = Some 9%Z /\ featureType info' = Some "points".
Proof.
  split; [reflexivity|].
  exact (proj2 (updateState_then_getPickingInfo "L" sampleBinary
                  (DCReason "data changed") initializeState sampleWorld
                  (mkPickingInfo (Some 2%Z) "L-points-text" None) eq_refl)
           eq_refl [7; 7; 9]%Z 2%Z eq_refl eq_refl ltac:(lia) eq_refl).
Defined.
